(** * Smart_gadget.py: the Sensiron BLE central driver

    A shallow embedding of class [Sensiron] of [smart_gadget.py] (the event
    router [_irq], the operation triggers, the result decoders) and the
    properties of its connection / discovery / read state machine.

    Python objects are mutable and Python code may raise at any point, so
    every method is a computation over a [world] (the driver object, the
    calls issued to the radio stack, the invocations of caller-supplied
    callbacks) that returns either a value or an exception, together with
    the world as it stands at that point: assignments made before a raise
    persist. *)

From Stdlib Require Import ZArith QArith Lia Bool List String.
From Stdlib Require Import Strings.Byte Floats.SpecFloat.
From stdpp Require Import base decidable option list strings gmap.

Local Open Scope Z_scope.

(** ** Values *)

(** [bytes] objects, and the payloads of [memoryview]s. *)
Abbreviation bytes := (list byte).

#[global] Instance byte_eq_decision : EqDecision byte := byte_eq_dec.

(** A [bluetooth.UUID], identified with the text that [str()] gives for it;
    two UUIDs are equal exactly when their texts are. *)
Abbreviation UUID := string.

(** [struct.unpack] returns a tuple, even for a single item
    (Note 2 in [read_temp_sensor_done]). *)
Inductive tuple1 (A : Type) : Type := Tuple1 (item0 : A).
Arguments Tuple1 {A} item0.

Definition item0 {A} (t : tuple1 A) : A := let 'Tuple1 x := t in x.

(** The exceptions the driver can meet. [ValueError] is what MicroPython's
    [struct.unpack] raises on a buffer that is too small. *)
Inductive exn : Type :=
| AttributeError (attr : string)
| TypeError
| ValueError
| OSError.

(** ** Module constants *)

Definition AUTO_MODE : bool := false.
Definition _DISCOVER_CHARACTERISTICS : bool := false.

Definition ADDR_TYPE_PUBLIC : Z := 0.
Definition ADDR_TYPE_RANDOM : Z := 1.

Definition _ADV_IND : Z := 0.
Definition _ADV_DIRECT_IND : Z := 1.
Definition _ADV_SCAN_IND : Z := 2.
Definition _ADV_SCAN_RSP : Z := 4.

Definition _HANDLE_BATT_LEVEL : Z := 29.
Definition _HANDLE_HUMIDITY : Z := 50.
Definition _HANDLE_TEMPERATURE : Z := 55.

Definition S_INIT : Z := 0.
Definition S_SCAN_DONE : Z := 1.
Definition S_SERVICE_DONE : Z := 2.
Definition S_CHARACTERISTIC_DONE : Z := 3.
Definition S_READ_BATTERY_DONE : Z := 4.
Definition S_READ_TSENSOR_DONE : Z := 5.
Definition S_READ_HSENSOR_DONE : Z := 6.

(** ** Callbacks *)

(** A callback is a bound method of the driver itself (the demo passes
    [gadget.scan_done], [gadget.read_battery_level_done], ...) or a function
    of the caller. The latter is known by a tag only: invoking it is
    recorded in the world and leaves the driver object alone. *)
Inductive callback : Type :=
| scan_done_method
| read_battery_level_done_method
| read_temp_sensor_done_method
| read_humid_sensor_done_method
| external (tag : nat).

(** The argument lists the router passes to callbacks. *)
Inductive cb_args : Type :=
| NoArgs
| ScanArgs (addr_type : option Z) (addr : option bytes) (name : option string)
| DataArgs (data : bytes).

(** ** The driver object *)

(** The attributes of a [Sensiron] instance. The last three are not created
    by [_reset]: [services] and [characteristics] come into being in
    [discover_services] / [discover_characteristics], and [search_service]
    is assigned by the application; [None] there means the attribute does
    not exist, and reading it raises [AttributeError]. *)
Record Sensiron : Type := mkSensiron {
  state : Z;
  search_addr : option bytes;
  addr_found : bool;
  name : option string;
  rssi : Z;
  version : option string;
  battery : option (tuple1 Z);
  temperature : option (tuple1 spec_float);
  humidity : option (tuple1 spec_float);
  _addr_type : option Z;
  _addr : option bytes;
  _value : option bytes;
  _scan_callback : option callback;
  _conn_callback : option callback;
  _serv_done_callback : option callback;
  _char_done_callback : option callback;
  _read_callback : option callback;
  _write_callback : option callback;
  _notify_callback : option callback;
  _conn_handle : option Z;
  _start_handle : option Z;
  _end_handle : option Z;
  _value_handle : option Z;
  services : option (gmap string (Z * Z));
  characteristics : option (gmap string (Z * Z * Z));
  search_service : option UUID
}.

(** Attribute assignment, one function per attribute that the class or the
    application assigns. *)
Definition set_state (v : Z) (o : Sensiron) : Sensiron :=
  let 'mkSensiron _ a2 a3 a4 a5 a6 a7 a8 a9 b1 b2 b3 c1 c2 c3 c4 c5 c6 c7 d1 d2 d3 d4 e1 e2 e3 := o in
  mkSensiron v a2 a3 a4 a5 a6 a7 a8 a9 b1 b2 b3 c1 c2 c3 c4 c5 c6 c7 d1 d2 d3 d4 e1 e2 e3.
Definition set_search_addr (v : option bytes) (o : Sensiron) : Sensiron :=
  let 'mkSensiron a1 _ a3 a4 a5 a6 a7 a8 a9 b1 b2 b3 c1 c2 c3 c4 c5 c6 c7 d1 d2 d3 d4 e1 e2 e3 := o in
  mkSensiron a1 v a3 a4 a5 a6 a7 a8 a9 b1 b2 b3 c1 c2 c3 c4 c5 c6 c7 d1 d2 d3 d4 e1 e2 e3.
Definition set_addr_found (v : bool) (o : Sensiron) : Sensiron :=
  let 'mkSensiron a1 a2 _ a4 a5 a6 a7 a8 a9 b1 b2 b3 c1 c2 c3 c4 c5 c6 c7 d1 d2 d3 d4 e1 e2 e3 := o in
  mkSensiron a1 a2 v a4 a5 a6 a7 a8 a9 b1 b2 b3 c1 c2 c3 c4 c5 c6 c7 d1 d2 d3 d4 e1 e2 e3.
Definition set_name (v : option string) (o : Sensiron) : Sensiron :=
  let 'mkSensiron a1 a2 a3 _ a5 a6 a7 a8 a9 b1 b2 b3 c1 c2 c3 c4 c5 c6 c7 d1 d2 d3 d4 e1 e2 e3 := o in
  mkSensiron a1 a2 a3 v a5 a6 a7 a8 a9 b1 b2 b3 c1 c2 c3 c4 c5 c6 c7 d1 d2 d3 d4 e1 e2 e3.
Definition set_rssi (v : Z) (o : Sensiron) : Sensiron :=
  let 'mkSensiron a1 a2 a3 a4 _ a6 a7 a8 a9 b1 b2 b3 c1 c2 c3 c4 c5 c6 c7 d1 d2 d3 d4 e1 e2 e3 := o in
  mkSensiron a1 a2 a3 a4 v a6 a7 a8 a9 b1 b2 b3 c1 c2 c3 c4 c5 c6 c7 d1 d2 d3 d4 e1 e2 e3.
Definition set_version (v : option string) (o : Sensiron) : Sensiron :=
  let 'mkSensiron a1 a2 a3 a4 a5 _ a7 a8 a9 b1 b2 b3 c1 c2 c3 c4 c5 c6 c7 d1 d2 d3 d4 e1 e2 e3 := o in
  mkSensiron a1 a2 a3 a4 a5 v a7 a8 a9 b1 b2 b3 c1 c2 c3 c4 c5 c6 c7 d1 d2 d3 d4 e1 e2 e3.
Definition set_battery (v : option (tuple1 Z)) (o : Sensiron) : Sensiron :=
  let 'mkSensiron a1 a2 a3 a4 a5 a6 _ a8 a9 b1 b2 b3 c1 c2 c3 c4 c5 c6 c7 d1 d2 d3 d4 e1 e2 e3 := o in
  mkSensiron a1 a2 a3 a4 a5 a6 v a8 a9 b1 b2 b3 c1 c2 c3 c4 c5 c6 c7 d1 d2 d3 d4 e1 e2 e3.
Definition set_temperature (v : option (tuple1 spec_float)) (o : Sensiron) : Sensiron :=
  let 'mkSensiron a1 a2 a3 a4 a5 a6 a7 _ a9 b1 b2 b3 c1 c2 c3 c4 c5 c6 c7 d1 d2 d3 d4 e1 e2 e3 := o in
  mkSensiron a1 a2 a3 a4 a5 a6 a7 v a9 b1 b2 b3 c1 c2 c3 c4 c5 c6 c7 d1 d2 d3 d4 e1 e2 e3.
Definition set_humidity (v : option (tuple1 spec_float)) (o : Sensiron) : Sensiron :=
  let 'mkSensiron a1 a2 a3 a4 a5 a6 a7 a8 _ b1 b2 b3 c1 c2 c3 c4 c5 c6 c7 d1 d2 d3 d4 e1 e2 e3 := o in
  mkSensiron a1 a2 a3 a4 a5 a6 a7 a8 v b1 b2 b3 c1 c2 c3 c4 c5 c6 c7 d1 d2 d3 d4 e1 e2 e3.
Definition set__addr_type (v : option Z) (o : Sensiron) : Sensiron :=
  let 'mkSensiron a1 a2 a3 a4 a5 a6 a7 a8 a9 _ b2 b3 c1 c2 c3 c4 c5 c6 c7 d1 d2 d3 d4 e1 e2 e3 := o in
  mkSensiron a1 a2 a3 a4 a5 a6 a7 a8 a9 v b2 b3 c1 c2 c3 c4 c5 c6 c7 d1 d2 d3 d4 e1 e2 e3.
Definition set__addr (v : option bytes) (o : Sensiron) : Sensiron :=
  let 'mkSensiron a1 a2 a3 a4 a5 a6 a7 a8 a9 b1 _ b3 c1 c2 c3 c4 c5 c6 c7 d1 d2 d3 d4 e1 e2 e3 := o in
  mkSensiron a1 a2 a3 a4 a5 a6 a7 a8 a9 b1 v b3 c1 c2 c3 c4 c5 c6 c7 d1 d2 d3 d4 e1 e2 e3.
Definition set__value (v : option bytes) (o : Sensiron) : Sensiron :=
  let 'mkSensiron a1 a2 a3 a4 a5 a6 a7 a8 a9 b1 b2 _ c1 c2 c3 c4 c5 c6 c7 d1 d2 d3 d4 e1 e2 e3 := o in
  mkSensiron a1 a2 a3 a4 a5 a6 a7 a8 a9 b1 b2 v c1 c2 c3 c4 c5 c6 c7 d1 d2 d3 d4 e1 e2 e3.
Definition set__scan_callback (v : option callback) (o : Sensiron) : Sensiron :=
  let 'mkSensiron a1 a2 a3 a4 a5 a6 a7 a8 a9 b1 b2 b3 _ c2 c3 c4 c5 c6 c7 d1 d2 d3 d4 e1 e2 e3 := o in
  mkSensiron a1 a2 a3 a4 a5 a6 a7 a8 a9 b1 b2 b3 v c2 c3 c4 c5 c6 c7 d1 d2 d3 d4 e1 e2 e3.
Definition set__conn_callback (v : option callback) (o : Sensiron) : Sensiron :=
  let 'mkSensiron a1 a2 a3 a4 a5 a6 a7 a8 a9 b1 b2 b3 c1 _ c3 c4 c5 c6 c7 d1 d2 d3 d4 e1 e2 e3 := o in
  mkSensiron a1 a2 a3 a4 a5 a6 a7 a8 a9 b1 b2 b3 c1 v c3 c4 c5 c6 c7 d1 d2 d3 d4 e1 e2 e3.
Definition set__serv_done_callback (v : option callback) (o : Sensiron) : Sensiron :=
  let 'mkSensiron a1 a2 a3 a4 a5 a6 a7 a8 a9 b1 b2 b3 c1 c2 _ c4 c5 c6 c7 d1 d2 d3 d4 e1 e2 e3 := o in
  mkSensiron a1 a2 a3 a4 a5 a6 a7 a8 a9 b1 b2 b3 c1 c2 v c4 c5 c6 c7 d1 d2 d3 d4 e1 e2 e3.
Definition set__char_done_callback (v : option callback) (o : Sensiron) : Sensiron :=
  let 'mkSensiron a1 a2 a3 a4 a5 a6 a7 a8 a9 b1 b2 b3 c1 c2 c3 _ c5 c6 c7 d1 d2 d3 d4 e1 e2 e3 := o in
  mkSensiron a1 a2 a3 a4 a5 a6 a7 a8 a9 b1 b2 b3 c1 c2 c3 v c5 c6 c7 d1 d2 d3 d4 e1 e2 e3.
Definition set__read_callback (v : option callback) (o : Sensiron) : Sensiron :=
  let 'mkSensiron a1 a2 a3 a4 a5 a6 a7 a8 a9 b1 b2 b3 c1 c2 c3 c4 _ c6 c7 d1 d2 d3 d4 e1 e2 e3 := o in
  mkSensiron a1 a2 a3 a4 a5 a6 a7 a8 a9 b1 b2 b3 c1 c2 c3 c4 v c6 c7 d1 d2 d3 d4 e1 e2 e3.
Definition set__write_callback (v : option callback) (o : Sensiron) : Sensiron :=
  let 'mkSensiron a1 a2 a3 a4 a5 a6 a7 a8 a9 b1 b2 b3 c1 c2 c3 c4 c5 _ c7 d1 d2 d3 d4 e1 e2 e3 := o in
  mkSensiron a1 a2 a3 a4 a5 a6 a7 a8 a9 b1 b2 b3 c1 c2 c3 c4 c5 v c7 d1 d2 d3 d4 e1 e2 e3.
Definition set__notify_callback (v : option callback) (o : Sensiron) : Sensiron :=
  let 'mkSensiron a1 a2 a3 a4 a5 a6 a7 a8 a9 b1 b2 b3 c1 c2 c3 c4 c5 c6 _ d1 d2 d3 d4 e1 e2 e3 := o in
  mkSensiron a1 a2 a3 a4 a5 a6 a7 a8 a9 b1 b2 b3 c1 c2 c3 c4 c5 c6 v d1 d2 d3 d4 e1 e2 e3.
Definition set__conn_handle (v : option Z) (o : Sensiron) : Sensiron :=
  let 'mkSensiron a1 a2 a3 a4 a5 a6 a7 a8 a9 b1 b2 b3 c1 c2 c3 c4 c5 c6 c7 _ d2 d3 d4 e1 e2 e3 := o in
  mkSensiron a1 a2 a3 a4 a5 a6 a7 a8 a9 b1 b2 b3 c1 c2 c3 c4 c5 c6 c7 v d2 d3 d4 e1 e2 e3.
Definition set__start_handle (v : option Z) (o : Sensiron) : Sensiron :=
  let 'mkSensiron a1 a2 a3 a4 a5 a6 a7 a8 a9 b1 b2 b3 c1 c2 c3 c4 c5 c6 c7 d1 _ d3 d4 e1 e2 e3 := o in
  mkSensiron a1 a2 a3 a4 a5 a6 a7 a8 a9 b1 b2 b3 c1 c2 c3 c4 c5 c6 c7 d1 v d3 d4 e1 e2 e3.
Definition set__end_handle (v : option Z) (o : Sensiron) : Sensiron :=
  let 'mkSensiron a1 a2 a3 a4 a5 a6 a7 a8 a9 b1 b2 b3 c1 c2 c3 c4 c5 c6 c7 d1 d2 _ d4 e1 e2 e3 := o in
  mkSensiron a1 a2 a3 a4 a5 a6 a7 a8 a9 b1 b2 b3 c1 c2 c3 c4 c5 c6 c7 d1 d2 v d4 e1 e2 e3.
Definition set__value_handle (v : option Z) (o : Sensiron) : Sensiron :=
  let 'mkSensiron a1 a2 a3 a4 a5 a6 a7 a8 a9 b1 b2 b3 c1 c2 c3 c4 c5 c6 c7 d1 d2 d3 _ e1 e2 e3 := o in
  mkSensiron a1 a2 a3 a4 a5 a6 a7 a8 a9 b1 b2 b3 c1 c2 c3 c4 c5 c6 c7 d1 d2 d3 v e1 e2 e3.
Definition set_services (v : option (gmap string (Z * Z))) (o : Sensiron) : Sensiron :=
  let 'mkSensiron a1 a2 a3 a4 a5 a6 a7 a8 a9 b1 b2 b3 c1 c2 c3 c4 c5 c6 c7 d1 d2 d3 d4 _ e2 e3 := o in
  mkSensiron a1 a2 a3 a4 a5 a6 a7 a8 a9 b1 b2 b3 c1 c2 c3 c4 c5 c6 c7 d1 d2 d3 d4 v e2 e3.
Definition set_characteristics (v : option (gmap string (Z * Z * Z))) (o : Sensiron) : Sensiron :=
  let 'mkSensiron a1 a2 a3 a4 a5 a6 a7 a8 a9 b1 b2 b3 c1 c2 c3 c4 c5 c6 c7 d1 d2 d3 d4 e1 _ e3 := o in
  mkSensiron a1 a2 a3 a4 a5 a6 a7 a8 a9 b1 b2 b3 c1 c2 c3 c4 c5 c6 c7 d1 d2 d3 d4 e1 v e3.
Definition set_search_service (v : option UUID) (o : Sensiron) : Sensiron :=
  let 'mkSensiron a1 a2 a3 a4 a5 a6 a7 a8 a9 b1 b2 b3 c1 c2 c3 c4 c5 c6 c7 d1 d2 d3 d4 e1 e2 _ := o in
  mkSensiron a1 a2 a3 a4 a5 a6 a7 a8 a9 b1 b2 b3 c1 c2 c3 c4 c5 c6 c7 d1 d2 d3 d4 e1 e2 v.

(** ** The world and the monad of Python computations *)

(** The calls the driver makes into [bluetooth.BLE]. [gap_scan_stop] is
    [gap_scan(None)]. *)
Inductive ble_call : Type :=
| gap_scan_start (duration_ms interval_us window_us : Z) (active : bool)
| gap_scan_stop
| ble_gap_connect (addr_type : Z) (addr : bytes)
| gap_disconnect (conn_handle : Z)
| gattc_discover_services (conn_handle : Z)
| gattc_discover_characteristics (conn_handle start_handle end_handle : Z)
| gattc_read (conn_handle : Z) (value_handle : option Z).

Record world : Type := mkWorld {
  obj : Sensiron;                          (* self *)
  ble_calls : list ble_call;               (* calls issued to self._ble, oldest first *)
  cb_calls : list (callback * cb_args)     (* callbacks invoked, oldest first *)
}.

Inductive result (A : Type) : Type :=
| Ok (a : A)
| Raise (e : exn).
Arguments Ok {A} a.
Arguments Raise {A} e.

Definition M (A : Type) : Type := world -> result A * world.

Definition ret {A} (a : A) : M A := fun w => (Ok a, w).

Definition raise {A} (e : exn) : M A := fun w => (Raise e, w).

Definition bind {A B} (m : M A) (k : A -> M B) : M B := fun w =>
  match m w with
  | (Ok a, w') => k a w'
  | (Raise e, w') => (Raise e, w')
  end.

Declare Scope py_scope.
Delimit Scope py_scope with py.
Notation "'let*' x ':=' m 'in' k" := (bind m (fun x => k))
  (at level 10, x name, m at level 100, k at level 200, only parsing) : py_scope.
Notation "m ;; k" := (bind m (fun _ => k))
  (at level 100, k at level 200, only parsing, right associativity) : py_scope.
Local Open Scope py_scope.

(** [self] *)
Definition self : M Sensiron := fun w => (Ok (obj w), w).

(** [self.attr = v] *)
Definition assign (f : Sensiron -> Sensiron) : M unit := fun w =>
  (Ok tt, mkWorld (f (obj w)) (ble_calls w) (cb_calls w)).

(** [if c: body] without an [else] *)
Definition when (c : bool) (body : M unit) : M unit :=
  if c then body else ret tt.

(** [try: body / except OSError as e: handler] *)
Definition try_except_OSError {A} (body handler : M A) : M A := fun w =>
  match body w with
  | (Raise OSError, w') => handler w'
  | r => r
  end.

(** [pass] *)
Definition pass : M unit := ret tt.

(** Recording that a callback body started to run. *)
Definition invoked (cb : callback) (args : cb_args) : M unit := fun w =>
  (Ok tt, mkWorld (obj w) (ble_calls w) (cb_calls w ++ [(cb, args)])).

(** Truth value testing: [None], [0] and the empty [bytes] are false. *)
Definition truthy_int (v : option Z) : bool :=
  match v with
  | Some n => negb (n =? 0)
  | None => false
  end.

Definition truthy_bytes (v : option bytes) : bool :=
  match v with
  | Some (_ :: _) => true
  | _ => false
  end.

(** ** [struct.unpack] *)

(** [data[0:n]] *)
Definition slice0 (n : nat) (data : bytes) : bytes := take n data.

(** [struct.unpack("B", buf)]: one unsigned byte. *)
Definition unpack_B (buf : bytes) : result (tuple1 Z) :=
  match buf with
  | b :: _ => Ok (Tuple1 (Z.of_N (Byte.to_N b)))
  | [] => Raise ValueError
  end.

(** The 32-bit word of four bytes, least significant first. *)
Definition le_word32 (b0 b1 b2 b3 : byte) : Z :=
  Z.lor (Z.of_N (Byte.to_N b0))
    (Z.lor (Z.shiftl (Z.of_N (Byte.to_N b1)) 8)
       (Z.lor (Z.shiftl (Z.of_N (Byte.to_N b2)) 16)
          (Z.shiftl (Z.of_N (Byte.to_N b3)) 24))).

(** The IEEE-754 single-precision number with the given bit pattern: sign
    bit 31, biased exponent in bits 30..23, fraction in bits 22..0. *)
Definition binary32_of_bits (w : Z) : spec_float :=
  let sign := Z.testbit w 31 in
  let e := Z.land (Z.shiftr w 23) 255 in
  let m := Z.land w (Z.ones 23) in
  if e =? 255 then (if m =? 0 then S754_infinity sign else S754_nan)
  else if e =? 0 then
    (if m =? 0 then S754_zero sign else S754_finite sign (Z.to_pos m) (-149))
  else S754_finite sign (Z.to_pos (Z.lor m (Z.shiftl 1 23))) (e - 150).

(** [struct.unpack("<f", buf)]: one little-endian single-precision float. *)
Definition unpack_lt_f (buf : bytes) : result (tuple1 spec_float) :=
  match buf with
  | b0 :: b1 :: b2 :: b3 :: _ => Ok (Tuple1 (binary32_of_bits (le_word32 b0 b1 b2 b3)))
  | _ => Raise ValueError
  end.

(** A library call that may raise, run as a computation. *)
Definition lift {A} (r : result A) : M A := fun w => (r, w).

(** The number a float denotes, when it denotes one. *)
Definition SF2Q (x : spec_float) : option Q :=
  match x with
  | S754_zero _ => Some 0%Q
  | S754_finite s m e =>
      let n := if s then Z.neg m else Z.pos m in
      Some (if 0 <=? e then inject_Z (n * 2 ^ e) else Qmake n (Z.to_pos (2 ^ (- e))))
  | _ => None
  end.

(** ** The class *)

Section Driver.

(** The radio stack: given the calls issued so far and a new call, it
    accepts the call ([true]) or rejects it with [OSError] ([false]). *)
Variable radio : list ble_call -> ble_call -> bool.

(** [ble_advertising.decode_name]: the device name in an advertising
    payload, or the empty string. *)
Variable decode_name : bytes -> string.

(** [self._ble.<call>(...)]. A [None] where the stack wants an integer is a
    [TypeError] before the stack sees the call. *)
Definition ble (c : ble_call) : M unit := fun w =>
  match c with
  | gattc_read _ None => (Raise TypeError, w)
  | _ =>
      let w' := mkWorld (obj w) (ble_calls w ++ [c]) (cb_calls w) in
      if radio (ble_calls w) c then (Ok tt, w') else (Raise OSError, w')
  end.

Definition _reset : M unit :=
  assign (set_state S_INIT);;
  assign (set_search_addr None);;
  assign (set_addr_found false);;
  assign (set_name None);;
  assign (set_rssi 0);;
  assign (set_version None);;
  assign (set_battery None);;
  assign (set_temperature None);;
  assign (set_humidity None);;
  assign (set__addr_type None);;
  assign (set__addr None);;
  assign (set__value None);;
  assign (set__scan_callback None);;
  assign (set__conn_callback None);;
  assign (set__serv_done_callback None);;
  assign (set__char_done_callback None);;
  assign (set__read_callback None);;
  assign (set__write_callback None);;
  assign (set__notify_callback None);;
  assign (set__conn_handle None);;
  assign (set__start_handle None);;
  assign (set__end_handle None);;
  assign (set__value_handle None).

(** [is_connected]: [self._conn_handle is not None] *)
Definition is_connected : M bool :=
  let* o := self in
  ret (bool_decide (_conn_handle o <> None)).

(** *** Action trigger methods *)

Definition scan (callback : option callback) : M unit :=
  assign (set__addr_type None);;
  assign (set__addr None);;
  assign (set__scan_callback callback);;
  try_except_OSError (ble (gap_scan_start 2000 30000 30000 true)) pass.

(** The class has [_debug] but no attribute [debug]. *)
Definition self_debug : M unit := raise (AttributeError "debug").

Definition gap_connect (addr_type : option Z) (addr : option bytes)
    (callback : option callback) : M bool :=
  when (bool_decide (addr_type <> None) && bool_decide (addr <> None))
    (assign (set__addr_type addr_type);;
     assign (set__addr addr));;
  assign (set__conn_callback callback);;
  let* o := self in
  match _addr_type o, _addr o with
  | Some t, Some a =>
      try_except_OSError (ble (ble_gap_connect t a);; ret true) (ret false)
  | _, _ =>
      self_debug;;
      ret false
  end.

(** A radio-stack call that takes [self._conn_handle]; the stack wants an
    integer there. *)
Definition ble_on_handle (conn_handle : option Z) (c : Z -> ble_call) : M unit :=
  match conn_handle with
  | Some h => ble (c h)
  | None => raise TypeError
  end.

Definition disconnect : M unit :=
  let* o := self in
  if negb (truthy_int (_conn_handle o)) then ret tt
  else
    try_except_OSError (ble_on_handle (_conn_handle o) gap_disconnect) pass;;
    _reset.

Definition discover_services (callback : option callback) : M unit :=
  assign (set_services (Some ∅));;
  let* connected := is_connected in
  if negb connected then ret tt
  else
    assign (set__serv_done_callback callback);;
    let* o := self in
    try_except_OSError
      (ble_on_handle (_conn_handle o) gattc_discover_services) pass.

Definition discover_characteristics (start_handle end_handle : Z)
    (callback : option callback) : M unit :=
  assign (set_characteristics (Some ∅));;
  let* connected := is_connected in
  if negb connected then ret tt
  else
    assign (set__char_done_callback callback);;
    let* o := self in
    try_except_OSError
      (ble_on_handle (_conn_handle o)
         (fun h => gattc_discover_characteristics h start_handle end_handle))
      pass.

Definition read (callback : option callback) : M unit :=
  let* connected := is_connected in
  if negb connected then ret tt
  else
    assign (set__read_callback callback);;
    let* o := self in
    try_except_OSError
      (ble_on_handle (_conn_handle o) (fun h => gattc_read h (_value_handle o)))
      pass.

(** [read_battery_level], [read_temp_sensor] and [read_humid_sensor] are
    the same method up to the handle constant they assign. *)
Definition read_fixed_handle (handle : Z) (callback : option callback) : M unit :=
  let* connected := is_connected in
  if negb connected then ret tt
  else
    assign (set__read_callback callback);;
    assign (set__value_handle (Some handle));;
    let* o := self in
    try_except_OSError
      (ble_on_handle (_conn_handle o) (fun h => gattc_read h (_value_handle o)))
      pass.

Definition read_battery_level := read_fixed_handle _HANDLE_BATT_LEVEL.
Definition read_temp_sensor := read_fixed_handle _HANDLE_TEMPERATURE.
Definition read_humid_sensor := read_fixed_handle _HANDLE_HUMIDITY.

(** *** Callback methods *)

Definition scan_done (addr_type : option Z) (addr : option bytes)
    (name : option string) : M unit :=
  assign (set_state S_SCAN_DONE).

Definition read_battery_level_done (data : bytes) : M unit :=
  let* v := lift (unpack_B (slice0 1 data)) in
  assign (set_battery (Some v));;
  assign (set_state S_READ_BATTERY_DONE).

Definition read_temp_sensor_done (data : bytes) : M unit :=
  let* v := lift (unpack_lt_f (slice0 4 data)) in
  assign (set_temperature (Some v));;
  assign (set_state S_READ_TSENSOR_DONE).

Definition read_humid_sensor_done (data : bytes) : M unit :=
  let* v := lift (unpack_lt_f (slice0 4 data)) in
  assign (set_humidity (Some v));;
  assign (set_state S_READ_HSENSOR_DONE).

(** [cb(args)]: a bound method called with the wrong number of arguments
    raises [TypeError] before its body runs. *)
Definition call (cb : callback) (args : cb_args) : M unit :=
  match cb, args with
  | external _, _ => invoked cb args
  | scan_done_method, ScanArgs t a n => invoked cb args;; scan_done t a n
  | read_battery_level_done_method, DataArgs d =>
      invoked cb args;; read_battery_level_done d
  | read_temp_sensor_done_method, DataArgs d =>
      invoked cb args;; read_temp_sensor_done d
  | read_humid_sensor_done_method, DataArgs d =>
      invoked cb args;; read_humid_sensor_done d
  | _, _ => raise TypeError
  end.

Definition _update_value (data : bytes) : M unit :=
  assign (set__value (Some data)).

Definition on_notify (callback : option callback) : M unit :=
  assign (set__notify_callback callback).

(** *** The event router *)

(** The events of [bluetooth.BLE.irq] with their data tuples. [IRQ_other]
    stands for every event id that [_irq] has no branch for. *)
Inductive event : Type :=
| IRQ_SCAN_RESULT (addr_type : Z) (addr : bytes) (adv_type rssi : Z) (adv_data : bytes)
| IRQ_SCAN_DONE
| IRQ_PERIPHERAL_CONNECT (conn_handle addr_type : Z) (addr : bytes)
| IRQ_PERIPHERAL_DISCONNECT (conn_handle addr_type : Z) (addr : bytes)
| IRQ_GATTC_SERVICE_RESULT (conn_handle start_handle end_handle : Z) (uuid : UUID)
| IRQ_GATTC_SERVICE_DONE (conn_handle status : Z)
| IRQ_GATTC_CHARACTERISTIC_RESULT (conn_handle def_handle value_handle properties : Z)
    (uuid : UUID)
| IRQ_GATTC_CHARACTERISTIC_DONE (conn_handle status : Z)
| IRQ_GATTC_READ_RESULT (conn_handle value_handle : Z) (char_data : bytes)
| IRQ_GATTC_READ_DONE (conn_handle value_handle status : Z)
| IRQ_GATTC_WRITE_DONE (conn_handle value_handle status : Z)
| IRQ_GATTC_NOTIFY (conn_handle value_handle : Z) (notify_data : bytes)
| IRQ_other (id : Z).

(** [adv_type in (_ADV_IND, _ADV_DIRECT_IND, _ADV_SCAN_RSP)] *)
Definition adv_type_wanted (adv_type : Z) : bool :=
  (adv_type =? _ADV_IND) || (adv_type =? _ADV_DIRECT_IND) || (adv_type =? _ADV_SCAN_RSP).

(** [decode_name(_adv_data) or "?"] *)
Definition name_or_unknown (adv_data : bytes) : string :=
  if bool_decide (decode_name adv_data = "") then "?" else decode_name adv_data.

(** [self.services[str(uuid)] = start_handle, end_handle] *)
Definition services_setitem (uuid : UUID) (v : Z * Z) : M unit :=
  let* o := self in
  match services o with
  | None => raise (AttributeError "services")
  | Some m => assign (set_services (Some (<[uuid := v]> m)))
  end.

(** [self.characteristics[str(uuid)] = def_handle, value_handle, properties] *)
Definition characteristics_setitem (uuid : UUID) (v : Z * Z * Z) : M unit :=
  let* o := self in
  match characteristics o with
  | None => raise (AttributeError "characteristics")
  | Some m => assign (set_characteristics (Some (<[uuid := v]> m)))
  end.

(** [self.search_service] *)
Definition self_search_service : M UUID :=
  let* o := self in
  match search_service o with
  | None => raise (AttributeError "search_service")
  | Some u => ret u
  end.

(** [self.read_firmware], which the class does not define. *)
Definition self_read_firmware : M unit := raise (AttributeError "read_firmware").

Definition _irq (ev : event) : M unit :=
  match ev with
  | IRQ_SCAN_RESULT addr_type addr adv_type rssi adv_data =>
      let _name := name_or_unknown adv_data in
      let* o := self in
      when (adv_type_wanted adv_type && bool_decide (Some addr = search_addr o))
        (assign (set__addr_type (Some addr_type));;
         assign (set_rssi rssi);;
         assign (set_addr_found true);;
         assign (set__addr (Some addr));;
         when (bool_decide (_name <> "?")) (assign (set_name (Some _name)));;
         ble gap_scan_stop)
  | IRQ_SCAN_DONE =>
      let* o := self in
      match _scan_callback o with
      | Some cb =>
          if truthy_bytes (_addr o) then
            call cb (ScanArgs (_addr_type o) (_addr o) (name o));;
            assign (set__scan_callback None);;
            when AUTO_MODE
              (let* o' := self in
               gap_connect (_addr_type o') (_addr o') None;; ret tt)
          else
            call cb (ScanArgs None None None)
      | None => ret tt
      end
  | IRQ_PERIPHERAL_CONNECT conn_handle addr_type addr =>
      let* o := self in
      when (bool_decide (Some addr_type = _addr_type o)
            && bool_decide (Some addr = _addr o))
        (assign (set__conn_handle (Some conn_handle));;
         match _conn_callback o with
         | Some cb => call cb NoArgs;; assign (set__conn_callback None)
         | None => ret tt
         end)
  | IRQ_PERIPHERAL_DISCONNECT conn_handle _ _ =>
      let* o := self in
      when (bool_decide (Some conn_handle = _conn_handle o)) _reset
  | IRQ_GATTC_SERVICE_RESULT conn_handle start_handle end_handle uuid =>
      let* o := self in
      when (bool_decide (Some conn_handle = _conn_handle o))
        (services_setitem uuid (start_handle, end_handle);;
         let* wanted := self_search_service in
         when (bool_decide (uuid = wanted))
           (assign (set__start_handle (Some start_handle));;
            assign (set__end_handle (Some end_handle))))
  | IRQ_GATTC_SERVICE_DONE _ _ =>
      assign (set_state S_SERVICE_DONE);;
      let* o := self in
      match _serv_done_callback o with
      | Some cb => call cb NoArgs;; assign (set__serv_done_callback None)
      | None => ret tt
      end;;
      when AUTO_MODE
        (if _DISCOVER_CHARACTERISTICS then
           let* o' := self in
           match _start_handle o', _end_handle o' with
           | Some s, Some e =>
               when (truthy_int (Some s) && truthy_int (Some e))
                 (discover_characteristics s e None)
           | _, _ => ret tt
           end
         else self_read_firmware)
  | IRQ_GATTC_CHARACTERISTIC_RESULT conn_handle def_handle value_handle properties uuid =>
      let* o := self in
      when (bool_decide (Some conn_handle = _conn_handle o))
        (characteristics_setitem uuid (def_handle, value_handle, properties))
  | IRQ_GATTC_CHARACTERISTIC_DONE _ _ =>
      assign (set_state S_CHARACTERISTIC_DONE);;
      let* o := self in
      match _char_done_callback o with
      | Some cb => call cb NoArgs;; assign (set__char_done_callback None)
      | None => ret tt
      end
  | IRQ_GATTC_READ_RESULT conn_handle value_handle char_data =>
      let* o := self in
      when (bool_decide (Some conn_handle = _conn_handle o)
            && bool_decide (Some value_handle = _value_handle o))
        (_update_value char_data;;
         match _read_callback o with
         | Some cb => call cb (DataArgs char_data);; assign (set__read_callback None)
         | None => ret tt
         end)
  | IRQ_GATTC_READ_DONE _ _ _ => ret tt
  | IRQ_GATTC_WRITE_DONE conn_handle value_handle _ =>
      let* o := self in
      when (bool_decide (Some conn_handle = _conn_handle o)
            && bool_decide (Some value_handle = _value_handle o))
        match _write_callback o with
        | Some cb => call cb NoArgs;; assign (set__write_callback None)
        | None => ret tt
        end
  | IRQ_GATTC_NOTIFY conn_handle value_handle notify_data =>
      let* o := self in
      when (bool_decide (Some conn_handle = _conn_handle o)
            && bool_decide (Some value_handle = _value_handle o))
        (_update_value notify_data;;
         match _notify_callback o with
         | Some cb => call cb (DataArgs notify_data)
         | None => ret tt
         end)
  | IRQ_other _ => ret tt
  end.

(** Events delivered one after the other. An exception that leaves [_irq]
    goes to the radio stack, which carries on with the next event. *)
Fixpoint deliver (evs : list event) (w : world) : world :=
  match evs with
  | [] => w
  | ev :: evs' => deliver evs' (snd (_irq ev w))
  end.

(** What the application can do with a driver object: the radio stack
    delivers an event, or the application calls a method or assigns one of
    the two search attributes (as [demo_man] does). *)
Inductive op : Type :=
| Irq (ev : event)
| Call_scan (callback : option callback)
| Call_gap_connect (addr_type : option Z) (addr : option bytes) (callback : option callback)
| Call_disconnect
| Call_discover_services (callback : option callback)
| Call_discover_characteristics (start_handle end_handle : Z) (callback : option callback)
| Call_read (callback : option callback)
| Call_read_battery_level (callback : option callback)
| Call_read_temp_sensor (callback : option callback)
| Call_read_humid_sensor (callback : option callback)
| Call_scan_done (addr_type : option Z) (addr : option bytes) (name : option string)
| Call_read_battery_level_done (data : bytes)
| Call_read_temp_sensor_done (data : bytes)
| Call_read_humid_sensor_done (data : bytes)
| Call_on_notify (callback : option callback)
| Call__reset
| Assign_search_addr (addr : bytes)
| Assign_search_service (uuid : UUID).

(** The world after an operation, whether it returned or raised. *)
Definition perform (o : op) (w : world) : world :=
  match o with
  | Irq ev => snd (_irq ev w)
  | Call_scan cb => snd (scan cb w)
  | Call_gap_connect t a cb => snd (gap_connect t a cb w)
  | Call_disconnect => snd (disconnect w)
  | Call_discover_services cb => snd (discover_services cb w)
  | Call_discover_characteristics s e cb => snd (discover_characteristics s e cb w)
  | Call_read cb => snd (read cb w)
  | Call_read_battery_level cb => snd (read_battery_level cb w)
  | Call_read_temp_sensor cb => snd (read_temp_sensor cb w)
  | Call_read_humid_sensor cb => snd (read_humid_sensor cb w)
  | Call_scan_done t a n => snd (scan_done t a n w)
  | Call_read_battery_level_done d => snd (read_battery_level_done d w)
  | Call_read_temp_sensor_done d => snd (read_temp_sensor_done d w)
  | Call_read_humid_sensor_done d => snd (read_humid_sensor_done d w)
  | Call_on_notify cb => snd (on_notify cb w)
  | Call__reset => snd (_reset w)
  | Assign_search_addr a => snd (assign (set_search_addr (Some a)) w)
  | Assign_search_service u => snd (assign (set_search_service (Some u)) w)
  end.

Definition run (ops : list op) (w : world) : world :=
  fold_left (fun w o => perform o w) ops w.

End Driver.

(** ** Reference points *)

(** The object [Sensiron.__init__] leaves behind: every attribute as
    [_reset] assigns it, and no [services], [characteristics] or
    [search_service] attribute yet. *)
Definition new_Sensiron : Sensiron :=
  mkSensiron S_INIT None false None 0 None None None None
    None None None
    None None None None None None None
    None None None None
    None None None.

Definition fresh : world := mkWorld new_Sensiron [] [].

(** The object after the assignments of [_reset]: the three attributes that
    [_reset] does not mention keep their values. *)
Definition reset_obj (o : Sensiron) : Sensiron :=
  mkSensiron S_INIT None false None 0 None None None None
    None None None
    None None None None None None None
    None None None None
    (services o) (characteristics o) (search_service o).

(** The same world with another driver object. *)
Definition with_obj (o : Sensiron) (w : world) : world :=
  mkWorld o (ble_calls w) (cb_calls w).

(** No callback is stored in any slot, one-shot or persistent. *)
Definition no_callbacks (o : Sensiron) : Prop :=
  _scan_callback o = None /\ _conn_callback o = None /\
  _serv_done_callback o = None /\ _char_done_callback o = None /\
  _read_callback o = None /\ _write_callback o = None /\
  _notify_callback o = None.

(** A radio stack that accepts every call. *)
Definition radio_accepts : list ble_call -> ble_call -> bool := fun _ _ => true.

(** An advertisement decoder for payloads that carry only a complete local
    name field: length byte, type byte 0x09, then the name. *)
Definition decode_name_simple (payload : bytes) : string :=
  match payload with
  | _ :: x09 :: rest => string_of_list_ascii (map Ascii.ascii_of_byte rest)
  | _ => ""
  end.

(** The condition of the scan-result branch: the advertiser is the one
    searched for, and the advertising type is one of [_ADV_IND],
    [_ADV_DIRECT_IND], [_ADV_SCAN_RSP]. *)
Definition scan_match (o : Sensiron) (addr : bytes) (adv_type : Z) : Prop :=
  search_addr o = Some addr
  /\ (adv_type = _ADV_IND \/ adv_type = _ADV_DIRECT_IND \/ adv_type = _ADV_SCAN_RSP).

(** The name an advertisement gives the device, if it gives one: the
    decoder returns the empty string when there is no name field, and the
    driver also treats the name ["?"] as no name. *)
Definition advertised_name (decode_name : bytes -> string) (adv_data : bytes)
    : option string :=
  if bool_decide (decode_name adv_data = "" \/ decode_name adv_data = "?")
  then None else Some (decode_name adv_data).

(** What a matching scan result records in the driver object. *)
Definition record_scan_result (addr_type : Z) (addr : bytes) (rssi : Z)
    (adv_name : option string) (o : Sensiron) : Sensiron :=
  let o' := set__addr (Some addr)
              (set_addr_found true
                 (set_rssi rssi (set__addr_type (Some addr_type) o))) in
  match adv_name with
  | Some n => set_name (Some n) o'
  | None => o'
  end.

(** The slot that an event serves, for the events that serve a one-shot
    slot. *)
Definition one_shot_slot (ev : event) : option (Sensiron -> option callback) :=
  match ev with
  | IRQ_SCAN_DONE => Some _scan_callback
  | IRQ_PERIPHERAL_CONNECT _ _ _ => Some _conn_callback
  | IRQ_GATTC_SERVICE_DONE _ _ => Some _serv_done_callback
  | IRQ_GATTC_CHARACTERISTIC_DONE _ _ => Some _char_done_callback
  | IRQ_GATTC_READ_RESULT _ _ _ => Some _read_callback
  | IRQ_GATTC_WRITE_DONE _ _ _ => Some _write_callback
  | _ => None
  end.

(** The methods that need a connection. *)
Definition connected_only (o : op) : Prop :=
  match o with
  | Call_discover_services _ | Call_discover_characteristics _ _ _
  | Call_read _ | Call_read_battery_level _ | Call_read_temp_sensor _
  | Call_read_humid_sensor _ => True
  | _ => False
  end.

(** A discovery cache is cleared when it is empty or does not exist. *)
Definition cache_cleared {V} (c : option (gmap string V)) : Prop :=
  c = None \/ c = Some ∅.

(** The MAC address of [Sensiron_mac], and the text of
    [_GENERIC_ACCESS_SERVICE_UUID]. *)
Definition Sensiron_mac0 : bytes := [xde; x15; xe4; xb1; xd6; x67].
Definition generic_access_uuid : UUID := "UUID(0x1800)".

(** A session as [demo_man] drives it: connect, discover the services, one
    service reported. *)
Definition discovered_session : list op :=
  [ Assign_search_addr Sensiron_mac0;
    Assign_search_service generic_access_uuid;
    Call_gap_connect (Some ADDR_TYPE_RANDOM) (Some Sensiron_mac0) None;
    Irq (IRQ_PERIPHERAL_CONNECT 1 ADDR_TYPE_RANDOM Sensiron_mac0);
    Call_discover_services None;
    Irq (IRQ_GATTC_SERVICE_RESULT 1 1 7 generic_access_uuid) ].

(** One step of the state is forward along the enumeration, or a return to
    [S_INIT]. *)
Definition forward_or_reset (s s' : Z) : Prop := s <= s' \/ s' = S_INIT.

(** Events and read-completion decoder calls. *)
Definition event_or_decoder (o : op) : Prop :=
  match o with
  | Irq _ | Call_read_battery_level_done _ | Call_read_temp_sensor_done _
  | Call_read_humid_sensor_done _ => True
  | _ => False
  end.

(** The values an operation can write to [state]: a completion writes its
    own marker, a reset writes [S_INIT]; a read result or a notification
    runs whatever decoder is stored as callback. *)
Definition state_written (o : op) : list Z :=
  match o with
  | Irq (IRQ_PERIPHERAL_DISCONNECT _ _ _) | Call_disconnect | Call__reset => [S_INIT]
  | Irq IRQ_SCAN_DONE | Call_scan_done _ _ _ => [S_SCAN_DONE]
  | Irq (IRQ_GATTC_SERVICE_DONE _ _) => [S_SERVICE_DONE]
  | Irq (IRQ_GATTC_CHARACTERISTIC_DONE _ _) => [S_CHARACTERISTIC_DONE]
  | Irq (IRQ_GATTC_READ_RESULT _ _ _) | Irq (IRQ_GATTC_NOTIFY _ _ _) =>
      [S_READ_BATTERY_DONE; S_READ_TSENSOR_DONE; S_READ_HSENSOR_DONE]
  | Call_read_battery_level_done _ => [S_READ_BATTERY_DONE]
  | Call_read_temp_sensor_done _ => [S_READ_TSENSOR_DONE]
  | Call_read_humid_sensor_done _ => [S_READ_HSENSOR_DONE]
  | _ => []
  end.

(** A scan result that is not the device searched for. *)
Definition scan_miss (o : Sensiron) (ev : event) : Prop :=
  match ev with
  | IRQ_SCAN_RESULT _ addr adv_type _ _ => ~ scan_match o addr adv_type
  | _ => False
  end.

(** ** The claims that the code does not meet, as they are worded *)

(** "The state only moves forward along the enumeration, or resets to
    Init", over events and decoder calls from a new driver object. *)
Definition state_monotone_claim : Prop :=
  forall (radio : list ble_call -> ble_call -> bool) (decode_name : bytes -> string)
         (ops : list op) (o : op),
    Forall event_or_decoder ops -> event_or_decoder o ->
    let w := run radio decode_name ops fresh in
    forward_or_reset (state (obj w)) (state (obj (perform radio decode_name o w))).

(** "A disconnect event for the session's own handle performs a full
    reset: state Init, no connection handle, all caches cleared including
    the discovery caches, callbacks discarded and never invoked later." *)
Definition disconnect_clears_all_claim : Prop :=
  forall (radio : list ble_call -> ble_call -> bool) (decode_name : bytes -> string)
         (h t : Z) (a : bytes) (w : world),
    _conn_handle (obj w) = Some h ->
    let w' := snd (_irq radio decode_name (IRQ_PERIPHERAL_DISCONNECT h t a) w) in
    state (obj w') = S_INIT /\ _conn_handle (obj w') = None
    /\ _addr (obj w') = None /\ _addr_type (obj w') = None /\ _value (obj w') = None
    /\ cache_cleared (services (obj w')) /\ cache_cleared (characteristics (obj w'))
    /\ no_callbacks (obj w')
    /\ forall evs, cb_calls (deliver radio decode_name evs w') = cb_calls w'.

(** "A connected-only operation called while disconnected changes
    nothing." *)
Definition disconnected_noop_claim : Prop :=
  forall (radio : list ble_call -> ble_call -> bool) (decode_name : bytes -> string)
         (o : op) (w : world),
    connected_only o -> _conn_handle (obj w) = None ->
    perform radio decode_name o w = w.

(** ** Concrete sessions *)

(** An advertisement that carries the name "SHT". *)
Definition adv_named_SHT : bytes := [x04; x09; x53; x48; x54].

(** A new driver object told which address to look for. *)
Definition searching : world :=
  run radio_accepts decode_name_simple [Assign_search_addr Sensiron_mac0] fresh.

(** The device was found by a scan that has completed. *)
Definition found_session : list op :=
  [ Assign_search_addr Sensiron_mac0;
    Call_scan (Some scan_done_method);
    Irq (IRQ_SCAN_RESULT ADDR_TYPE_RANDOM Sensiron_mac0 _ADV_IND (-60) adv_named_SHT);
    Irq IRQ_SCAN_DONE ].

Definition found : world := run radio_accepts decode_name_simple found_session fresh.

Definition discovered : world :=
  run radio_accepts decode_name_simple discovered_session fresh.

(** The link to the discovered session has dropped. *)
Definition dropped : world :=
  perform radio_accepts decode_name_simple
    (Irq (IRQ_PERIPHERAL_DISCONNECT 1 ADDR_TYPE_RANDOM Sensiron_mac0)) discovered.

(** ** More of the class *)

(** [value()] *)
Definition value : M (option bytes) :=
  let* o := self in
  ret (_value o).

#[global] Instance callback_eq_decision : EqDecision callback.
Proof. solve_decision. Defined.

(** The connection handle in the data of an event. *)
Definition event_conn_handle (ev : event) : option Z :=
  match ev with
  | IRQ_PERIPHERAL_CONNECT h _ _ | IRQ_PERIPHERAL_DISCONNECT h _ _
  | IRQ_GATTC_SERVICE_RESULT h _ _ _ | IRQ_GATTC_SERVICE_DONE h _
  | IRQ_GATTC_CHARACTERISTIC_RESULT h _ _ _ _ | IRQ_GATTC_CHARACTERISTIC_DONE h _
  | IRQ_GATTC_READ_RESULT h _ _ | IRQ_GATTC_READ_DONE h _ _
  | IRQ_GATTC_WRITE_DONE h _ _ | IRQ_GATTC_NOTIFY h _ _ => Some h
  | IRQ_SCAN_RESULT _ _ _ _ _ | IRQ_SCAN_DONE | IRQ_other _ => None
  end.

(** Whether the branch of [_irq] for the event compares that handle with
    [self._conn_handle]. The connect branch stores the handle instead; the
    service-done and characteristic-done branches do not look at their
    data; the read-done branch unpacks it and does nothing. *)
Definition compares_conn_handle (ev : event) : bool :=
  match ev with
  | IRQ_PERIPHERAL_DISCONNECT _ _ _ | IRQ_GATTC_SERVICE_RESULT _ _ _ _
  | IRQ_GATTC_CHARACTERISTIC_RESULT _ _ _ _ _ | IRQ_GATTC_READ_RESULT _ _ _
  | IRQ_GATTC_WRITE_DONE _ _ _ | IRQ_GATTC_NOTIFY _ _ _ => true
  | _ => false
  end.

(** The value handle in the data of an event. *)
Definition event_value_handle (ev : event) : option Z :=
  match ev with
  | IRQ_GATTC_READ_RESULT _ vh _ | IRQ_GATTC_READ_DONE _ vh _
  | IRQ_GATTC_WRITE_DONE _ vh _ | IRQ_GATTC_NOTIFY _ vh _ => Some vh
  | _ => None
  end.

(** Whether the branch of [_irq] for the event compares that handle with
    [self._value_handle]. *)
Definition compares_value_handle (ev : event) : bool :=
  match ev with
  | IRQ_GATTC_READ_RESULT _ _ _ | IRQ_GATTC_WRITE_DONE _ _ _
  | IRQ_GATTC_NOTIFY _ _ _ => true
  | _ => false
  end.

(** The radio-stack calls of an operation on a session, read off the
    methods: the router calls the stack only to stop the scan on a matching
    scan result; each trigger makes its one call when its precondition
    holds; callbacks, [on_notify], [_reset] and assignments make none. *)
Definition radio_calls (o : op) (w : world) : list ble_call :=
  let s := obj w in
  match o with
  | Irq (IRQ_SCAN_RESULT _ addr adv_type _ _) =>
      if decide (scan_match s addr adv_type) then [gap_scan_stop] else []
  | Call_scan _ => [gap_scan_start 2000 30000 30000 true]
  | Call_gap_connect (Some t) (Some a) _ => [ble_gap_connect t a]
  | Call_gap_connect _ _ _ =>
      match _addr_type s, _addr s with
      | Some t, Some a => [ble_gap_connect t a]
      | _, _ => []
      end
  | Call_disconnect =>
      match _conn_handle s with
      | Some h => if h =? 0 then [] else [gap_disconnect h]
      | None => []
      end
  | Call_discover_services _ =>
      match _conn_handle s with
      | Some h => [gattc_discover_services h]
      | None => []
      end
  | Call_discover_characteristics start_handle end_handle _ =>
      match _conn_handle s with
      | Some h => [gattc_discover_characteristics h start_handle end_handle]
      | None => []
      end
  | Call_read _ =>
      match _conn_handle s, _value_handle s with
      | Some h, Some vh => [gattc_read h (Some vh)]
      | _, _ => []
      end
  | Call_read_battery_level _ =>
      match _conn_handle s with
      | Some h => [gattc_read h (Some _HANDLE_BATT_LEVEL)]
      | None => []
      end
  | Call_read_temp_sensor _ =>
      match _conn_handle s with
      | Some h => [gattc_read h (Some _HANDLE_TEMPERATURE)]
      | None => []
      end
  | Call_read_humid_sensor _ =>
      match _conn_handle s with
      | Some h => [gattc_read h (Some _HANDLE_HUMIDITY)]
      | None => []
      end
  | _ => []
  end.

(** The callback sits in one of the seven slots. *)
Definition stored (cb : callback) (o : Sensiron) : Prop :=
  _scan_callback o = Some cb \/ _conn_callback o = Some cb
  \/ _serv_done_callback o = Some cb \/ _char_done_callback o = Some cb
  \/ _read_callback o = Some cb \/ _write_callback o = Some cb
  \/ _notify_callback o = Some cb.

(** The invocations of one callback in a log. *)
Definition invocations_of (cb : callback) (log : list (callback * cb_args))
    : list (callback * cb_args) :=
  filter (fun p => fst p = cb) log.

(** The repeated notifications of one characteristic. *)
Definition notifications (h vh : Z) (payloads : list bytes) : list event :=
  map (IRQ_GATTC_NOTIFY h vh) payloads.

(** The triggers that store a callback, and the slot each one stores it
    in. *)
Inductive trigger : Type :=
| T_scan
| T_gap_connect (addr_type : option Z) (addr : option bytes)
| T_discover_services
| T_discover_characteristics (start_handle end_handle : Z)
| T_read
| T_read_battery_level
| T_read_temp_sensor
| T_read_humid_sensor.

Definition trigger_op (k : trigger) (callback : option callback) : op :=
  match k with
  | T_scan => Call_scan callback
  | T_gap_connect t a => Call_gap_connect t a callback
  | T_discover_services => Call_discover_services callback
  | T_discover_characteristics s e => Call_discover_characteristics s e callback
  | T_read => Call_read callback
  | T_read_battery_level => Call_read_battery_level callback
  | T_read_temp_sensor => Call_read_temp_sensor callback
  | T_read_humid_sensor => Call_read_humid_sensor callback
  end.

Definition trigger_slot (k : trigger) : nat :=
  match k with
  | T_scan => 0
  | T_gap_connect _ _ => 1
  | T_discover_services => 2
  | T_discover_characteristics _ _ => 3
  | T_read | T_read_battery_level | T_read_temp_sensor | T_read_humid_sensor => 4
  end%nat.

(** *** Waiting *)

Section Waiting.

Variable radio : list ble_call -> ble_call -> bool.
Variable decode_name : bytes -> string.

(** [time.ticks_diff] *)
Variable ticks_diff : Z -> Z -> Z.

(** The waiting loops read the clock and sleep; the radio stack delivers
    events while they do. A [poll] is one reading of [time.ticks_ms()]
    together with the events delivered from then until the next reading. *)
Record poll : Type := mkPoll {
  ticks_ms : Z;
  meanwhile : list event
}.

(** The loop of [wait_for] and [wait_for_connection]:
    [while ticks_diff(ticks_ms(), t0) < timeout_ms:
       if <cond>: return True
       sleep_ms(_T_WAIT)
     return False].
    The result is [None] when the list of polls ends before the loop does. *)
Fixpoint wait_loop (cond : Sensiron -> bool) (t0 timeout_ms : Z)
    (clock : list poll) (w : world) : option bool * world :=
  match clock with
  | [] => (None, w)
  | p :: clock' =>
      if ticks_diff (ticks_ms p) t0 <? timeout_ms then
        if cond (obj w) then (Some true, w)
        else wait_loop cond t0 timeout_ms clock'
               (deliver radio decode_name (meanwhile p) w)
      else (Some false, w)
  end.

(** [t0 = time.ticks_ms()], then the loop. *)
Definition wait_from_now (cond : Sensiron -> bool) (timeout_ms : Z)
    (clock : list poll) (w : world) : option bool * world :=
  match clock with
  | [] => (None, w)
  | p0 :: clock' =>
      wait_loop cond (ticks_ms p0) timeout_ms clock'
        (deliver radio decode_name (meanwhile p0) w)
  end.

(** [wait_for(state, timeout_ms)], as method and as stand-alone function. *)
Definition wait_for (state_wanted timeout_ms : Z) :=
  wait_from_now (fun o => bool_decide (state o = state_wanted)) timeout_ms.

(** [wait_for_connection(status, timeout_ms)], as method and as stand-alone
    function. *)
Definition wait_for_connection (status : bool) (timeout_ms : Z) :=
  wait_from_now
    (fun o => bool_decide (bool_decide (_conn_handle o <> None) = status))
    timeout_ms.

End Waiting.

(** *** More concrete sessions *)

(** A radio stack that rejects every call. *)
Definition radio_rejects : list ble_call -> ble_call -> bool := fun _ _ => false.

(** A clock without wrap-around. *)
Definition ticks_diff_plain (t1 t0 : Z) : Z := t1 - t0.

(** Connected to the device, handle 1, nothing discovered or read yet. *)
Definition connected : world :=
  run radio_accepts decode_name_simple
    [ Assign_search_addr Sensiron_mac0;
      Assign_search_service generic_access_uuid;
      Call_gap_connect (Some ADDR_TYPE_RANDOM) (Some Sensiron_mac0) None;
      Irq (IRQ_PERIPHERAL_CONNECT 1 ADDR_TYPE_RANDOM Sensiron_mac0) ] fresh.

(** Connected, with characteristic discovery started and a notification
    callback installed for the temperature handle. *)
Definition subscribed : world :=
  run radio_accepts decode_name_simple
    [ Call_discover_characteristics 1 255 None;
      Call_read_temp_sensor None;
      Call_on_notify (Some (external 7)) ] connected.

(** ** Properties *)

Section Properties.

Variable radio : list ble_call -> ble_call -> bool.
Variable decode_name : bytes -> string.

(** *** Tactics *)

(** Unfolding the methods and the monad. *)
Ltac run_py :=
  unfold _irq, call, scan_done, read_battery_level_done, read_temp_sensor_done,
    read_humid_sensor_done, _update_value, services_setitem,
    characteristics_setitem, self_search_service, bind, self, when, assign,
    invoked, lift, ret, raise, AUTO_MODE;
  cbn [obj ble_calls cb_calls fst snd].

(** Case analysis on the next test of a computation, and evaluation that
    leaves the tests themselves alone. *)
Ltac break_if :=
  match goal with
  | |- context [if ?c then _ else _] =>
      lazymatch c with
      | context [if _ then _ else _] => fail
      | context [match _ with _ => _ end] => fail
      | _ => let b := fresh "b" in generalize c; intros b; destruct b
      end
  | |- context [match ?x with _ => _ end] =>
      lazymatch x with
      | context [if _ then _ else _] => fail
      | context [match _ with _ => _ end] => fail
      | _ => destruct x
      end
  end.

Ltac py_step := cbn -[bool_decide insert adv_type_wanted name_or_unknown Z.eqb].

Ltac run_op :=
  unfold perform, scan, gap_connect, disconnect, discover_services,
    discover_characteristics, read, read_battery_level, read_temp_sensor,
    read_humid_sensor, read_fixed_handle, on_notify, self_debug,
    is_connected, ble_on_handle, try_except_OSError, pass;
  run_py; unfold ble; py_step.

(** *** Basic facts *)

Lemma with_obj_same (w : world) : with_obj (obj w) w = w.
Proof. by destruct w. Qed.

(** [_reset] always returns, touches neither log, and leaves exactly
    [reset_obj]. *)
Lemma _reset_eq (w : world) : _reset w = (Ok tt, with_obj (reset_obj (obj w)) w).
Proof. destruct w as [[] bl cl]. reflexivity. Qed.

Lemma reset_obj_no_callbacks (o : Sensiron) : no_callbacks (reset_obj o).
Proof. repeat split. Qed.

Lemma is_connected_eq (w : world) :
  is_connected w = (Ok (bool_decide (_conn_handle (obj w) <> None)), w).
Proof. reflexivity. Qed.

(** *** Result decoders *)

(** C8. The decoders at the two known payloads. On the one-byte payload
    0x64 the battery decoder returns and sets the state to
    [S_READ_BATTERY_DONE], but what it assigns to [battery] is the tuple
    [(100,)] that [struct.unpack] returns, not the number 100 that the class
    docstring announces ([battery (int)]); 100 is the item of that tuple.
    On the payload 00 00 BC 41, the little-endian single-precision encoding
    of 23.5, the temperature decoder likewise assigns a one-item tuple and
    sets the state to [S_READ_TSENSOR_DONE]; the item is the float that
    denotes exactly 23.5. *)
Theorem decoders_known_payloads (w : world) :
  read_battery_level_done [x64] w
    = (Ok tt, with_obj (set_state S_READ_BATTERY_DONE
                          (set_battery (Some (Tuple1 100)) (obj w))) w)
  /\ item0 <$> battery (obj (snd (read_battery_level_done [x64] w))) = Some 100
  /\ (exists t : spec_float,
        read_temp_sensor_done [x00; x00; xbc; x41] w
          = (Ok tt, with_obj (set_state S_READ_TSENSOR_DONE
                                (set_temperature (Some (Tuple1 t)) (obj w))) w)
        /\ exists q : Q, SF2Q t = Some q /\ (q == 47 # 2)%Q).
Proof.
  split; [reflexivity|]. split; [by destruct w as [[] bl cl]|].
  exists (S754_finite false 12320768 (-19)). split; [reflexivity|].
  eexists. split; [reflexivity|]. reflexivity.
Qed.

Lemma slice0_short (n : nat) (data : bytes) :
  (length data < n)%nat -> slice0 n data = data.
Proof. intros H. apply take_ge. lia. Qed.

Lemma unpack_B_short (buf : bytes) :
  (length buf < 1)%nat -> unpack_B buf = Raise ValueError.
Proof. destruct buf; simpl; [reflexivity | lia]. Qed.

Lemma unpack_lt_f_short (buf : bytes) :
  (length buf < 4)%nat -> unpack_lt_f buf = Raise ValueError.
Proof.
  destruct buf as [|b0 [|b1 [|b2 [|b3 rest]]]]; simpl; try reflexivity; lia.
Qed.

(** C9. A payload shorter than the layout needs makes the decoder raise:
    with no byte the battery decoder raises [ValueError], with fewer than
    four bytes the temperature and the humidity decoder raise [ValueError];
    the world is left as it was, so neither the telemetry attribute nor the
    state is assigned. *)
Theorem decoders_short_payload (data : bytes) (w : world) :
  ((length data < 1)%nat ->
     read_battery_level_done data w = (Raise ValueError, w))
  /\ ((length data < 4)%nat ->
        read_temp_sensor_done data w = (Raise ValueError, w)
        /\ read_humid_sensor_done data w = (Raise ValueError, w)).
Proof.
  split.
  - intros H. unfold read_battery_level_done, bind, lift.
    rewrite slice0_short by exact H. by rewrite unpack_B_short.
  - intros H. unfold read_temp_sensor_done, read_humid_sensor_done, bind, lift.
    rewrite slice0_short by exact H. by rewrite unpack_lt_f_short.
Qed.

(** Through the router: a short read result handed to a decoder that is
    the pending read callback makes [_irq] raise; the payload is cached but
    battery, state and the callback slot stay as they were. *)
Lemma read_result_short_payload (h vh : Z) (w : world) :
  _conn_handle (obj w) = Some h ->
  _value_handle (obj w) = Some vh ->
  _read_callback (obj w) = Some read_battery_level_done_method ->
  _irq radio decode_name (IRQ_GATTC_READ_RESULT h vh []) w
    = (Raise ValueError,
       mkWorld (set__value (Some []) (obj w)) (ble_calls w)
         (cb_calls w ++ [(read_battery_level_done_method, DataArgs [])])).
Proof.
  destruct w as [[] bl cl]; simpl. intros -> -> ->.
  unfold _irq, bind, self, when; simpl.
  rewrite !bool_decide_eq_true_2 by reflexivity. reflexivity.
Qed.

(** *** Connecting *)

Lemma gap_connect_no_cached_address (callback : option callback) (w : world) :
  _addr_type (obj w) = None \/ _addr (obj w) = None ->
  gap_connect radio None None callback w
    = (Raise (AttributeError "debug"),
       with_obj (set__conn_callback callback (obj w)) w).
Proof.
  destruct w as [[] bl cl]; simpl.
  intros [-> | ->]; unfold gap_connect, bind, when, self, assign; simpl;
    repeat case_match; simplify_eq; reflexivity.
Qed.

(** With an explicit address that the radio stack accepts, [gap_connect]
    returns [True], having stored address, type and callback and issued one
    connect request. *)
Lemma gap_connect_explicit_accepted (t : Z) (a : bytes)
    (callback : option callback) (w : world) :
  radio (ble_calls w) (ble_gap_connect t a) = true ->
  gap_connect radio (Some t) (Some a) callback w
    = (Ok true,
       mkWorld (set__conn_callback callback
                  (set__addr (Some a) (set__addr_type (Some t) (obj w))))
         (ble_calls w ++ [ble_gap_connect t a]) (cb_calls w)).
Proof.
  destruct w as [[] bl cl]; simpl. intros H.
  unfold gap_connect, bind, when, self, assign, try_except_OSError, ble; simpl.
  rewrite H. reflexivity.
Qed.

(** With the address cached by a scan and an accepting radio stack,
    [gap_connect] without arguments returns [True] as well. *)
Lemma gap_connect_cached_accepted (t : Z) (a : bytes)
    (callback : option callback) (w : world) :
  _addr_type (obj w) = Some t ->
  _addr (obj w) = Some a ->
  radio (ble_calls w) (ble_gap_connect t a) = true ->
  gap_connect radio None None callback w
    = (Ok true,
       mkWorld (set__conn_callback callback (obj w))
         (ble_calls w ++ [ble_gap_connect t a]) (cb_calls w)).
Proof.
  destruct w as [[] bl cl]; simpl. intros -> -> H.
  unfold gap_connect, bind, when, self, assign, try_except_OSError, ble; simpl.
  rewrite H. reflexivity.
Qed.

(** C4. [gap_connect] on a new driver object with neither an address
    argument nor a cached address does not return [False]: it stores the
    callback and then raises [AttributeError] on [self.debug], an attribute
    the class does not have. The callback is not invoked and no request
    reaches the radio stack. *)
Theorem gap_connect_no_address_raises (callback : option callback) :
  gap_connect radio None None callback fresh
    = (Raise (AttributeError "debug"),
       mkWorld (set__conn_callback callback new_Sensiron) [] []).
Proof. reflexivity. Qed.

(** *** Disconnecting *)

(** Not connected: [disconnect] does nothing. *)
Lemma disconnect_not_connected (w : world) :
  _conn_handle (obj w) = None -> disconnect radio w = (Ok tt, w).
Proof. intros H. unfold disconnect, bind, self. simpl. by rewrite H. Qed.

(** Connected with a non-zero handle: [disconnect] asks the radio stack to
    terminate the link and resets at once, whatever the stack answers. *)
Lemma disconnect_connected (h : Z) (w : world) :
  _conn_handle (obj w) = Some h -> h <> 0 ->
  disconnect radio w
    = (Ok tt, mkWorld (reset_obj (obj w)) (ble_calls w ++ [gap_disconnect h])
                (cb_calls w)).
Proof.
  intros Hh Hnz. unfold disconnect, bind, self. cbn [obj fst snd]. rewrite Hh.
  unfold truthy_int. destruct (Z.eqb_spec h 0) as [|_]; [done|]. cbn [negb].
  unfold try_except_OSError, ble_on_handle, ble, pass, ret.
  destruct (radio (ble_calls w) (gap_disconnect h)); by rewrite _reset_eq.
Qed.

(** C6. With connection handle 0 the driver is connected in the sense of
    [is_connected] (the handle is not [None]), yet [disconnect] returns at
    once: no termination request, no reset, the world is unchanged. *)
Theorem disconnect_handle_zero_noop (w : world) :
  let w0 := with_obj (set__conn_handle (Some 0) (obj w)) w in
  is_connected w0 = (Ok true, w0) /\ disconnect radio w0 = (Ok tt, w0).
Proof. destruct w as [[] bl cl]. split; reflexivity. Qed.

(** *** One-shot callbacks *)

(** An event invokes at most one callback. *)
Lemma irq_invokes_at_most_one (ev : event) (w : world) :
  exists l : list (callback * cb_args),
    cb_calls (snd (_irq radio decode_name ev w)) = cb_calls w ++ l
    /\ (length l <= 1)%nat.
Proof.
  destruct w as [[] bl cl].
  destruct ev; run_py; unfold ble; py_step;
    repeat (break_if; py_step);
    first [ exists []; rewrite app_nil_r; split; [reflexivity | simpl; lia]
          | eexists [_]; split; [reflexivity | simpl; lia] ].
Qed.

(** When an event has invoked the callback of its slot and the callback
    has returned, the slot is empty -- except after a scan-done event that
    found no address cached. *)
Lemma one_shot_cleared_after_invocation (ev : event)
    (slot : Sensiron -> option callback) (w : world) :
  one_shot_slot ev = Some slot ->
  fst (_irq radio decode_name ev w) = Ok tt ->
  cb_calls (snd (_irq radio decode_name ev w)) <> cb_calls w ->
  slot (obj (snd (_irq radio decode_name ev w))) = None
  \/ (ev = IRQ_SCAN_DONE /\ truthy_bytes (_addr (obj w)) = false).
Proof.
  destruct w as [[] bl cl].
  destruct ev; intros [= <-]; cbn [obj _addr];
    try match goal with |- context [truthy_bytes ?a] =>
          destruct a as [[|? ?]|] end;
    run_py; unfold ble; py_step;
    repeat (break_if; py_step; try done);
    intros _ Hc; first [ by left | by right | done ].
Qed.

(** C2. A scan that times out leaves its callback in the slot: after
    [scan(cb)] on a new driver object, a first scan-done event invokes [cb]
    with [(None, None, None)] and keeps it stored, and a second scan-done
    event invokes it again. *)
Theorem scan_timeout_callback_invoked_twice (tag : nat) :
  let cb := external tag in
  let w1 := snd (scan radio (Some cb) fresh) in
  let w2 := snd (_irq radio decode_name IRQ_SCAN_DONE w1) in
  let w3 := snd (_irq radio decode_name IRQ_SCAN_DONE w2) in
  cb_calls w1 = []
  /\ cb_calls w2 = [(cb, ScanArgs None None None)]
  /\ _scan_callback (obj w2) = Some cb
  /\ cb_calls w3 = [(cb, ScanArgs None None None); (cb, ScanArgs None None None)].
Proof.
  unfold scan, bind, assign, try_except_OSError, ble, pass, ret. simpl.
  destruct (radio [] (gap_scan_start 2000 30000 30000 true)); simpl;
    repeat split; reflexivity.
Qed.

(** When a scan did find the device, the scan-done event invokes the
    callback once with the cached address and empties the slot, so a second
    scan-done event invokes nothing. *)
Lemma scan_found_callback_cleared (tag : nat) (w : world) :
  _scan_callback (obj w) = Some (external tag) ->
  truthy_bytes (_addr (obj w)) = true ->
  let w1 := snd (_irq radio decode_name IRQ_SCAN_DONE w) in
  w1 = mkWorld (set__scan_callback None (obj w)) (ble_calls w)
         (cb_calls w ++
            [(external tag, ScanArgs (_addr_type (obj w)) (_addr (obj w)) (name (obj w)))])
  /\ _irq radio decode_name IRQ_SCAN_DONE w1 = (Ok tt, w1).
Proof.
  destruct w as [[] bl cl]; simpl. intros -> Ht.
  unfold _irq, bind, self; simpl. rewrite Ht. simpl. split; reflexivity.
Qed.

(** *** Scanning *)

Lemma adv_type_wanted_iff (adv_type : Z) :
  adv_type_wanted adv_type = true
  <-> adv_type = _ADV_IND \/ adv_type = _ADV_DIRECT_IND \/ adv_type = _ADV_SCAN_RSP.
Proof. unfold adv_type_wanted. rewrite !orb_true_iff, !Z.eqb_eq. tauto. Qed.

Lemma scan_match_test (o : Sensiron) (addr : bytes) (adv_type : Z) :
  adv_type_wanted adv_type && bool_decide (Some addr = search_addr o) = true
  <-> scan_match o addr adv_type.
Proof.
  unfold scan_match.
  rewrite andb_true_iff, bool_decide_eq_true, adv_type_wanted_iff.
  intuition congruence.
Qed.

(** A matching scan result: what is recorded, and the stop request. *)
Lemma scan_result_hit (addr_type : Z) (addr : bytes) (adv_type signal : Z)
    (adv_data : bytes) (w : world) :
  scan_match (obj w) addr adv_type ->
  let w' := snd (_irq radio decode_name
                   (IRQ_SCAN_RESULT addr_type addr adv_type signal adv_data) w) in
  obj w' = record_scan_result addr_type addr signal
             (advertised_name decode_name adv_data) (obj w)
  /\ ble_calls w' = ble_calls w ++ [gap_scan_stop]
  /\ cb_calls w' = cb_calls w.
Proof.
  intros Hm w'. apply scan_match_test in Hm. subst w'.
  unfold _irq, bind, self. cbn [obj fst snd]. rewrite Hm.
  unfold when, record_scan_result, advertised_name, name_or_unknown.
  destruct w as [o bl cl]. cbn [obj ble_calls cb_calls].
  destruct (decide (decode_name adv_data = "")) as [He|He].
  - rewrite He. rewrite (bool_decide_eq_true_2 ("" = "")) by reflexivity.
    rewrite bool_decide_eq_false_2 by (intros H; by apply H).
    rewrite bool_decide_eq_true_2 by (by left).
    unfold assign, ble, ret; simpl.
    destruct (radio bl gap_scan_stop); done.
  - rewrite (bool_decide_eq_false_2 (decode_name adv_data = "")) by exact He.
    destruct (decide (decode_name adv_data = "?")) as [Hq|Hq].
    + rewrite bool_decide_eq_false_2 by (intros H; by apply H).
      rewrite bool_decide_eq_true_2 by (by right).
      unfold assign, ble, ret; simpl.
      destruct (radio bl gap_scan_stop); done.
    + rewrite bool_decide_eq_true_2 by exact Hq.
      rewrite bool_decide_eq_false_2 by (intros [?|?]; done).
      unfold assign, ble, ret; simpl.
      destruct (radio bl gap_scan_stop); done.
Qed.

(** Any other scan result is dropped. *)
Lemma scan_result_miss (addr_type : Z) (addr : bytes) (adv_type signal : Z)
    (adv_data : bytes) (w : world) :
  ~ scan_match (obj w) addr adv_type ->
  _irq radio decode_name (IRQ_SCAN_RESULT addr_type addr adv_type signal adv_data) w
    = (Ok tt, w).
Proof.
  intros Hm. rewrite <- scan_match_test in Hm. apply not_true_is_false in Hm.
  unfold _irq, bind, self. cbn [obj fst snd]. by rewrite Hm.
Qed.


(** *** Operations that need a connection *)

(** C7 (as the code has it). While disconnected, [read] and the three
    sensor reads return at once and leave the world as it is: no callback
    stored or invoked, no radio call, [_value_handle] untouched.
    [discover_services] and [discover_characteristics] also store no
    callback and issue no radio call, but they have already replaced their
    cache by an empty one before they test the connection. *)
Theorem connected_only_when_disconnected (callback : option callback)
    (start_handle end_handle : Z) (w : world) :
  _conn_handle (obj w) = None ->
  read radio callback w = (Ok tt, w)
  /\ read_battery_level radio callback w = (Ok tt, w)
  /\ read_temp_sensor radio callback w = (Ok tt, w)
  /\ read_humid_sensor radio callback w = (Ok tt, w)
  /\ discover_services radio callback w
       = (Ok tt, with_obj (set_services (Some ∅) (obj w)) w)
  /\ discover_characteristics radio start_handle end_handle callback w
       = (Ok tt, with_obj (set_characteristics (Some ∅) (obj w)) w).
Proof.
  destruct w as [[] bl cl]; simpl. intros ->.
  repeat split; reflexivity.
Qed.

(** *** Reset on disconnect *)

(** With every callback slot empty an event invokes nothing and stores
    nothing in a slot. *)
Lemma irq_no_callbacks (ev : event) (w : world) :
  no_callbacks (obj w) ->
  no_callbacks (obj (snd (_irq radio decode_name ev w)))
  /\ cb_calls (snd (_irq radio decode_name ev w)) = cb_calls w.
Proof.
  destruct w as [[] bl cl]. unfold no_callbacks. py_step.
  intros (-> & -> & -> & -> & -> & -> & ->).
  destruct ev; run_py; unfold ble; py_step; try done.
  all: repeat (break_if; py_step; try done).
Qed.

Lemma deliver_no_callbacks (evs : list event) (w : world) :
  no_callbacks (obj w) ->
  cb_calls (deliver radio decode_name evs w) = cb_calls w.
Proof.
  revert w. induction evs as [|ev evs IH]; intros w Hw; [reflexivity|].
  simpl. destruct (irq_no_callbacks ev w Hw) as [Hn Hc].
  rewrite (IH _ Hn). exact Hc.
Qed.

Lemma disconnect_event_eq (h t : Z) (a : bytes) (w : world) :
  _conn_handle (obj w) = Some h ->
  _irq radio decode_name (IRQ_PERIPHERAL_DISCONNECT h t a) w
    = (Ok tt, with_obj (reset_obj (obj w)) w).
Proof.
  intros Hh. unfold _irq, bind, self, when. cbn [obj fst snd]. rewrite Hh.
  rewrite bool_decide_eq_true_2 by reflexivity. apply _reset_eq.
Qed.

(** A disconnect event for another handle, or while not connected, is
    dropped. *)
Lemma disconnect_event_stale (h t : Z) (a : bytes) (w : world) :
  _conn_handle (obj w) <> Some h ->
  _irq radio decode_name (IRQ_PERIPHERAL_DISCONNECT h t a) w = (Ok tt, w).
Proof.
  intros Hh. unfold _irq, bind, self, when. cbn [obj fst snd].
  by rewrite bool_decide_eq_false_2 by congruence.
Qed.

(** C3 (as the code has it). A peripheral-disconnect event for the
    session's own connection handle returns with the object as [_reset]
    leaves it: state [S_INIT], no connection handle, the cached address,
    address type and value gone, the telemetry gone, every callback slot
    empty; no callback is invoked by the event, and none by any events that
    follow. The [services] and [characteristics] caches are not touched by
    the reset: they keep their contents. *)
Theorem disconnect_event_resets (h t : Z) (a : bytes) (w : world) :
  _conn_handle (obj w) = Some h ->
  let r := _irq radio decode_name (IRQ_PERIPHERAL_DISCONNECT h t a) w in
  let w' := snd r in
  r = (Ok tt, with_obj (reset_obj (obj w)) w)
  /\ state (obj w') = S_INIT
  /\ _conn_handle (obj w') = None
  /\ _addr (obj w') = None /\ _addr_type (obj w') = None /\ _value (obj w') = None
  /\ battery (obj w') = None /\ temperature (obj w') = None
  /\ humidity (obj w') = None
  /\ no_callbacks (obj w')
  /\ services (obj w') = services (obj w)
  /\ characteristics (obj w') = characteristics (obj w)
  /\ cb_calls w' = cb_calls w
  /\ forall evs, cb_calls (deliver radio decode_name evs w') = cb_calls w.
Proof.
  intros Hh r w'. subst w' r. rewrite (disconnect_event_eq h t a w Hh).
  cbn [snd]. repeat split.
  intros evs. rewrite deliver_no_callbacks; [reflexivity|].
  apply reset_obj_no_callbacks.
Qed.

(** *** The state attribute *)

(** The service-done and the characteristic-done event write their marker
    whatever the state was. *)
Lemma discovery_done_state (h st : Z) (w : world) :
  state (obj (snd (_irq radio decode_name (IRQ_GATTC_SERVICE_DONE h st) w)))
    = S_SERVICE_DONE
  /\ state (obj (snd (_irq radio decode_name (IRQ_GATTC_CHARACTERISTIC_DONE h st) w)))
       = S_CHARACTERISTIC_DONE.
Proof.
  destruct w as [[] bl cl].
  split; run_py; py_step; repeat (break_if; py_step; try done).
Qed.

(** C1 (as the code has it). After any operation -- an event, a trigger, a
    decoder or other callback method -- the state is what it was, or it is
    one of the values this operation writes: [S_INIT] for a reset, and for a
    completion its own marker. The marker is written whatever the previous
    state was: the service-done and the characteristic-done event always
    leave theirs, also when the state was further along. *)
Theorem state_after_operation :
  (forall (o : op) (w : world),
     let s' := state (obj (perform radio decode_name o w)) in
     s' = state (obj w) \/ In s' (state_written o))
  /\ (forall (h st : Z) (w : world),
        state (obj (perform radio decode_name (Irq (IRQ_GATTC_SERVICE_DONE h st)) w))
          = S_SERVICE_DONE)
  /\ (forall (h st : Z) (w : world),
        state (obj (perform radio decode_name
                      (Irq (IRQ_GATTC_CHARACTERISTIC_DONE h st)) w))
          = S_CHARACTERISTIC_DONE).
Proof.
  split; [|split].
  - intros o w s'. subst s'. destruct w as [[] bl cl].
    destruct o as [ev| | | | | | | | | | | | | | | | |]; [destruct ev|..];
      unfold state_written; run_op; try (left; reflexivity);
      repeat (break_if; py_step; try (left; reflexivity));
      right; unfold S_INIT, S_SCAN_DONE, S_SERVICE_DONE, S_CHARACTERISTIC_DONE,
        S_READ_BATTERY_DONE, S_READ_TSENSOR_DONE, S_READ_HSENSOR_DONE;
      simpl; tauto.
  - intros h st w. apply discovery_done_state.
  - intros h st w. apply discovery_done_state.
Qed.

(** *** Stale scan results *)

Lemma scan_eq (callback : option callback) (w : world) :
  scan radio callback w
    = (Ok tt,
       mkWorld (set__scan_callback callback (set__addr None (set__addr_type None (obj w))))
         (ble_calls w ++ [gap_scan_start 2000 30000 30000 true]) (cb_calls w)).
Proof.
  destruct w as [o bl cl]. run_op.
  destruct (radio bl (gap_scan_start 2000 30000 30000 true)); reflexivity.
Qed.

Lemma deliver_scan_misses (evs : list event) (w : world) :
  Forall (scan_miss (obj w)) evs -> deliver radio decode_name evs w = w.
Proof.
  induction 1 as [|ev evs Hev _ IH]; [reflexivity|].
  destruct ev as [t a adv sig data| | | | | | | | | | | |]; try contradiction.
  simpl in Hev. cbn [deliver].
  rewrite (scan_result_miss t a adv sig data w Hev). exact IH.
Qed.

Lemma deliver_app (evs1 evs2 : list event) (w : world) :
  deliver radio decode_name (evs1 ++ evs2) w
    = deliver radio decode_name evs2 (deliver radio decode_name evs1 w).
Proof. revert w. induction evs1 as [|ev evs1 IH]; intros w; simpl; auto. Qed.

(** A scan-done event leaves [addr_found] alone. *)
Lemma scan_done_event_addr_found (w : world) :
  addr_found (obj (snd (_irq radio decode_name IRQ_SCAN_DONE w)))
    = addr_found (obj w).
Proof.
  destruct w as [[] bl cl]. run_op.
  repeat (break_if; py_step; try reflexivity).
Qed.

(** Only a reset clears [addr_found]. *)
Lemma addr_found_cleared_by_reset (o : op) (w : world) :
  addr_found (obj w) = true ->
  addr_found (obj (perform radio decode_name o w)) = false ->
  obj (perform radio decode_name o w) = reset_obj (obj w).
Proof.
  destruct w as [[] bl cl]. cbn [obj addr_found]. intros ->.
  destruct o as [ev| | | | | | | | | | | | | | | | |]; [destruct ev|..];
    run_op; try discriminate;
    repeat (break_if; py_step; try discriminate); intros _; reflexivity.
Qed.

(** C10. [scan] clears the cached address and address type, stores the
    callback and requests a scan; it leaves [addr_found], [name] and [rssi]
    as they are. So when an earlier scan has set [addr_found], a new scan
    that sees only other devices and then completes still ends with
    [addr_found] true although no address is cached. Among all operations
    only a reset clears [addr_found]. *)
Theorem scan_leaves_addr_found_stale (callback : option callback) (w : world) :
  let w1 := snd (scan radio callback w) in
  obj w1 = set__scan_callback callback (set__addr None (set__addr_type None (obj w)))
  /\ _addr (obj w1) = None /\ _addr_type (obj w1) = None
  /\ addr_found (obj w1) = addr_found (obj w)
  /\ name (obj w1) = name (obj w)
  /\ rssi (obj w1) = rssi (obj w)
  /\ (addr_found (obj w) = true ->
        forall evs : list event, Forall (scan_miss (obj w)) evs ->
          let w2 := deliver radio decode_name (evs ++ [IRQ_SCAN_DONE]) w1 in
          addr_found (obj w2) = true /\ _addr (obj w2) = None)
  /\ (addr_found (obj w) = true ->
        forall o : op,
          addr_found (obj (perform radio decode_name o w)) = false ->
          obj (perform radio decode_name o w) = reset_obj (obj w)).
Proof.
  intros w1. subst w1. rewrite scan_eq. cbn [snd obj].
  split; [reflexivity|].
  repeat (split; [by destruct (obj w)|]).
  split.
  - intros Hf evs Hevs. rewrite deliver_app.
    rewrite (deliver_scan_misses evs)
      by (eapply Forall_impl; [exact Hevs|]; intros ev;
          cbn [obj]; by destruct (obj w)).
    cbn [deliver]. split.
    + rewrite scan_done_event_addr_found. cbn [obj]. rewrite <- Hf.
      by destruct (obj w).
    + destruct w as [[] bl cl]. run_op.
      repeat (break_if; py_step; try reflexivity).
  - intros Hf o. by apply addr_found_cleared_by_reset.
Qed.

(** *** Connect events *)

(** X1. A peripheral-connect event is taken only when its address type and
    address are the ones the driver holds: it then stores the connection
    handle, and invokes and clears a pending connect callback of the
    caller. Any other connect event returns with the world unchanged. *)
Theorem connect_event_effect (h t : Z) (a : bytes) (w : world) :
  let ev := IRQ_PERIPHERAL_CONNECT h t a in
  (_addr_type (obj w) = Some t -> _addr (obj w) = Some a ->
     (_conn_callback (obj w) = None ->
        _irq radio decode_name ev w
          = (Ok tt, with_obj (set__conn_handle (Some h) (obj w)) w))
     /\ (forall tag, _conn_callback (obj w) = Some (external tag) ->
           _irq radio decode_name ev w
             = (Ok tt,
                mkWorld (set__conn_callback None (set__conn_handle (Some h) (obj w)))
                  (ble_calls w) (cb_calls w ++ [(external tag, NoArgs)])))
     /\ _conn_handle (obj (snd (_irq radio decode_name ev w))) = Some h)
  /\ (_addr_type (obj w) <> Some t \/ _addr (obj w) <> Some a ->
        _irq radio decode_name ev w = (Ok tt, w)).
Proof.
  intros ev. subst ev. destruct w as [[] bl cl]. cbn [obj _addr_type _addr _conn_callback].
  split.
  - intros -> ->. run_py.
    rewrite !bool_decide_eq_true_2 by reflexivity. cbn [andb].
    split; [|split].
    + intros ->. reflexivity.
    + intros tag ->. reflexivity.
    + repeat (break_if; py_step; try reflexivity).
  - intros Hne. run_py. cbn [_addr_type _addr].
    assert (bool_decide (Some t = _addr_type0) && bool_decide (Some a = _addr0) = false)
      as ->; [|reflexivity].
    apply andb_false_iff.
    destruct Hne as [Hne | Hne]; [left | right];
      apply bool_decide_eq_false_2; congruence.
Qed.

(** *** Stale events *)

(** X2. Which events are dropped as stale. The disconnect,
    service-result, characteristic-result, read-result, write-done and
    notify branches compare the connection handle of the event with the
    session's: when it differs -- in particular while there is no
    connection -- the router returns with the world unchanged. The
    read-result, write-done and notify branches do the same for the value
    handle, and a read-done event is a no-op whatever it carries. The
    service-done and characteristic-done events also carry a connection
    handle, but their branches never look at it: whatever the handle and
    whatever the session, they set the state and invoke and clear a pending
    callback of the caller. *)
Theorem stale_event_dropped :
  (forall (ev : event) (h : Z) (w : world),
     event_conn_handle ev = Some h -> compares_conn_handle ev = true ->
     _conn_handle (obj w) <> Some h ->
     _irq radio decode_name ev w = (Ok tt, w))
  /\ (forall (ev : event) (vh : Z) (w : world),
        event_value_handle ev = Some vh -> compares_value_handle ev = true ->
        _value_handle (obj w) <> Some vh ->
        _irq radio decode_name ev w = (Ok tt, w))
  /\ (forall (h vh st : Z) (w : world),
        _irq radio decode_name (IRQ_GATTC_READ_DONE h vh st) w = (Ok tt, w))
  /\ (forall (h st : Z) (tag : nat) (w : world),
        _serv_done_callback (obj w) = Some (external tag) ->
        _irq radio decode_name (IRQ_GATTC_SERVICE_DONE h st) w
          = (Ok tt,
             mkWorld (set__serv_done_callback None (set_state S_SERVICE_DONE (obj w)))
               (ble_calls w) (cb_calls w ++ [(external tag, NoArgs)])))
  /\ (forall (h st : Z) (tag : nat) (w : world),
        _char_done_callback (obj w) = Some (external tag) ->
        _irq radio decode_name (IRQ_GATTC_CHARACTERISTIC_DONE h st) w
          = (Ok tt,
             mkWorld (set__char_done_callback None
                        (set_state S_CHARACTERISTIC_DONE (obj w)))
               (ble_calls w) (cb_calls w ++ [(external tag, NoArgs)]))).
Proof.
  split; [|split; [|split; [|split]]].
  - intros ev h w Hev Hcmp Hne. destruct w as [[] bl cl].
    cbn [obj _conn_handle] in Hne.
    destruct ev; try discriminate Hcmp; injection Hev as ->; run_py;
      cbn [_conn_handle _value_handle];
      rewrite (bool_decide_eq_false_2 (Some h = _)) by congruence;
      reflexivity.
  - intros ev vh w Hev Hcmp Hne. destruct w as [[] bl cl].
    cbn [obj _value_handle] in Hne.
    destruct ev; try discriminate Hcmp; injection Hev as ->; run_py;
      cbn [_conn_handle _value_handle];
      rewrite (bool_decide_eq_false_2 (Some vh = _)) by congruence;
      rewrite andb_false_r; reflexivity.
  - reflexivity.
  - intros h st tag w Hcb. destruct w as [[] bl cl].
    cbn [obj _serv_done_callback] in Hcb. subst. reflexivity.
  - intros h st tag w Hcb. destruct w as [[] bl cl].
    cbn [obj _char_done_callback] in Hcb. subst. reflexivity.
Qed.

(** *** Discovery results *)

(** X3. With a connection and an existing [services] cache, a
    service-result event for the session's handle enters the service under
    its UUID: looking the UUID up afterwards gives the reported handle
    range, every other entry is as before, and the range is remembered as
    [_start_handle] / [_end_handle] exactly when the UUID is
    [search_service]. *)
Theorem service_result_recorded (h s e : Z) (uuid wanted : UUID)
    (m : gmap string (Z * Z)) (w : world) :
  _conn_handle (obj w) = Some h ->
  services (obj w) = Some m ->
  search_service (obj w) = Some wanted ->
  let r := _irq radio decode_name (IRQ_GATTC_SERVICE_RESULT h s e uuid) w in
  let o' := obj (snd r) in
  fst r = Ok tt
  /\ services o' = Some (<[uuid := (s, e)]> m)
  /\ (exists m', services o' = Some m' /\ m' !! uuid = Some (s, e)
        /\ forall k, k <> uuid -> m' !! k = m !! k)
  /\ (uuid = wanted -> _start_handle o' = Some s /\ _end_handle o' = Some e)
  /\ (uuid <> wanted ->
        _start_handle o' = _start_handle (obj w)
        /\ _end_handle o' = _end_handle (obj w))
  /\ ble_calls (snd r) = ble_calls w /\ cb_calls (snd r) = cb_calls w.
Proof.
  intros Hh Hs Hw r o'. subst o' r. destruct w as [[] bl cl].
  cbn [obj _conn_handle services search_service] in Hh, Hs, Hw. subst.
  run_py. rewrite bool_decide_eq_true_2 by reflexivity. py_step.
  destruct (decide (uuid = wanted)) as [->|Hne].
  - rewrite bool_decide_eq_true_2 by reflexivity. py_step.
    repeat split; try done.
    eexists. split; [reflexivity|]. split; [apply lookup_insert_eq|].
    intros k Hk. by apply lookup_insert_ne.
  - rewrite bool_decide_eq_false_2 by exact Hne. py_step.
    repeat split; try done.
    eexists. split; [reflexivity|]. split; [apply lookup_insert_eq|].
    intros k Hk. by apply lookup_insert_ne.
Qed.

(** X4. Discovery results need the attributes that [_reset] does not
    create. A service result for the session's handle raises
    [AttributeError] and leaves the world unchanged when no [services]
    cache exists ([discover_services] was never called); when the cache
    exists but [search_service] was never assigned, the service is entered
    and then [AttributeError] is raised. A characteristic result raises
    [AttributeError] without a [characteristics] cache. *)
Theorem discovery_result_missing_attribute (h : Z) (w : world) :
  _conn_handle (obj w) = Some h ->
  (forall s e uuid, services (obj w) = None ->
     _irq radio decode_name (IRQ_GATTC_SERVICE_RESULT h s e uuid) w
       = (Raise (AttributeError "services"), w))
  /\ (forall s e uuid m, services (obj w) = Some m -> search_service (obj w) = None ->
        _irq radio decode_name (IRQ_GATTC_SERVICE_RESULT h s e uuid) w
          = (Raise (AttributeError "search_service"),
             with_obj (set_services (Some (<[uuid := (s, e)]> m)) (obj w)) w))
  /\ (forall d v p uuid, characteristics (obj w) = None ->
        _irq radio decode_name (IRQ_GATTC_CHARACTERISTIC_RESULT h d v p uuid) w
          = (Raise (AttributeError "characteristics"), w)).
Proof.
  destruct w as [[] bl cl].
  cbn [obj _conn_handle services search_service characteristics].
  intros ->. split; [|split].
  - intros s e uuid ->. run_py.
    by rewrite bool_decide_eq_true_2 by reflexivity.
  - intros s e uuid m -> ->. run_py.
    by rewrite bool_decide_eq_true_2 by reflexivity.
  - intros d v p uuid ->. run_py.
    by rewrite bool_decide_eq_true_2 by reflexivity.
Qed.

(** X5. With a connection and an existing [characteristics] cache, a
    characteristic-result event for the session's handle enters the
    characteristic under its UUID: looking it up gives the reported
    declaration handle, value handle and properties, other entries are as
    before, and nothing else in the world changes. *)
Theorem characteristic_result_recorded (h d v p : Z) (uuid : UUID)
    (m : gmap string (Z * Z * Z)) (w : world) :
  _conn_handle (obj w) = Some h ->
  characteristics (obj w) = Some m ->
  _irq radio decode_name (IRQ_GATTC_CHARACTERISTIC_RESULT h d v p uuid) w
    = (Ok tt, with_obj (set_characteristics (Some (<[uuid := (d, v, p)]> m)) (obj w)) w)
  /\ (<[uuid := (d, v, p)]> m) !! uuid = Some (d, v, p)
  /\ (forall k, k <> uuid -> (<[uuid := (d, v, p)]> m) !! k = m !! k).
Proof.
  destruct w as [[] bl cl]. cbn [obj _conn_handle characteristics].
  intros -> ->. split; [|split].
  - run_py. by rewrite bool_decide_eq_true_2 by reflexivity.
  - apply lookup_insert_eq.
  - intros k Hk. by apply lookup_insert_ne.
Qed.

(** *** Reading *)

Lemma read_fixed_handle_connected (h handle : Z) (callback : option callback)
    (w : world) :
  _conn_handle (obj w) = Some h ->
  read_fixed_handle radio handle callback w
    = (Ok tt,
       mkWorld (set__value_handle (Some handle) (set__read_callback callback (obj w)))
         (ble_calls w ++ [gattc_read h (Some handle)]) (cb_calls w)).
Proof.
  destruct w as [[] bl cl]. cbn [obj _conn_handle]. intros ->.
  run_op. rewrite bool_decide_eq_true_2 by discriminate. py_step.
  destruct (radio bl (gattc_read h (Some handle))); reflexivity.
Qed.

(** X6. Trigger and completion compose. On a connected session a sensor
    read with the matching decoder as callback, followed by the read-result
    event for the session's handle and the sensor's value handle, stores
    the decoded value (the first byte for the battery, the float of the
    first four bytes for temperature and humidity), sets the decoder's
    state, caches the payload, empties the read slot, and has issued one
    [gattc_read] and invoked the decoder once. *)
Theorem sensor_read_completes (h : Z) (w : world) :
  _conn_handle (obj w) = Some h ->
  (forall b rest,
     let data := b :: rest in
     let w1 := snd (read_battery_level radio (Some read_battery_level_done_method) w) in
     _irq radio decode_name (IRQ_GATTC_READ_RESULT h _HANDLE_BATT_LEVEL data) w1
       = (Ok tt,
          mkWorld
            (set__read_callback None
               (set_state S_READ_BATTERY_DONE
                  (set_battery (Some (Tuple1 (Z.of_N (Byte.to_N b))))
                     (set__value (Some data)
                        (set__value_handle (Some _HANDLE_BATT_LEVEL) (obj w))))))
            (ble_calls w ++ [gattc_read h (Some _HANDLE_BATT_LEVEL)])
            (cb_calls w ++ [(read_battery_level_done_method, DataArgs data)])))
  /\ (forall b0 b1 b2 b3 rest,
        let data := b0 :: b1 :: b2 :: b3 :: rest in
        let w1 := snd (read_temp_sensor radio (Some read_temp_sensor_done_method) w) in
        _irq radio decode_name (IRQ_GATTC_READ_RESULT h _HANDLE_TEMPERATURE data) w1
          = (Ok tt,
             mkWorld
               (set__read_callback None
                  (set_state S_READ_TSENSOR_DONE
                     (set_temperature
                        (Some (Tuple1 (binary32_of_bits (le_word32 b0 b1 b2 b3))))
                        (set__value (Some data)
                           (set__value_handle (Some _HANDLE_TEMPERATURE) (obj w))))))
               (ble_calls w ++ [gattc_read h (Some _HANDLE_TEMPERATURE)])
               (cb_calls w ++ [(read_temp_sensor_done_method, DataArgs data)])))
  /\ (forall b0 b1 b2 b3 rest,
        let data := b0 :: b1 :: b2 :: b3 :: rest in
        let w1 := snd (read_humid_sensor radio (Some read_humid_sensor_done_method) w) in
        _irq radio decode_name (IRQ_GATTC_READ_RESULT h _HANDLE_HUMIDITY data) w1
          = (Ok tt,
             mkWorld
               (set__read_callback None
                  (set_state S_READ_HSENSOR_DONE
                     (set_humidity
                        (Some (Tuple1 (binary32_of_bits (le_word32 b0 b1 b2 b3))))
                        (set__value (Some data)
                           (set__value_handle (Some _HANDLE_HUMIDITY) (obj w))))))
               (ble_calls w ++ [gattc_read h (Some _HANDLE_HUMIDITY)])
               (cb_calls w ++ [(read_humid_sensor_done_method, DataArgs data)]))).
Proof.
  intros Hh.
  repeat split; intros; subst data w1;
    unfold read_battery_level, read_temp_sensor, read_humid_sensor;
    rewrite (read_fixed_handle_connected h _ _ w Hh); cbn [snd];
    destruct w as [[] bl cl]; cbn [obj _conn_handle] in Hh; subst;
    run_py; cbn [_conn_handle _value_handle set__value_handle set__read_callback];
    rewrite !bool_decide_eq_true_2 by reflexivity; reflexivity.
Qed.

(** X7. A read result for the handle of an earlier read is dropped once a
    new sensor read has been triggered: after [read_temp_sensor], a result
    for the battery handle leaves the world as it is, and the pending
    callback stays pending. *)
Theorem late_read_result_dropped (h : Z) (callback : option callback)
    (data : bytes) (w : world) :
  _conn_handle (obj w) = Some h ->
  let w1 := snd (read_temp_sensor radio callback w) in
  _irq radio decode_name (IRQ_GATTC_READ_RESULT h _HANDLE_BATT_LEVEL data) w1
    = (Ok tt, w1)
  /\ _read_callback (obj w1) = callback.
Proof.
  intros Hh w1. subst w1. unfold read_temp_sensor.
  rewrite (read_fixed_handle_connected h _ _ w Hh). cbn [snd].
  split; [|by destruct (obj w)].
  destruct w as [[] bl cl]. run_py.
  cbn [_conn_handle _value_handle set__value_handle set__read_callback].
  rewrite (bool_decide_eq_false_2 (Some _HANDLE_BATT_LEVEL = _)) by discriminate.
  by rewrite andb_false_r.
Qed.

(** *** Which callbacks can run *)

Lemma invocations_of_app (cb : callback) (l1 l2 : list (callback * cb_args)) :
  invocations_of cb (l1 ++ l2) = invocations_of cb l1 ++ invocations_of cb l2.
Proof. apply filter_app. Qed.

Lemma invocations_of_other (cb cb' : callback) (args : cb_args)
    (l : list (callback * cb_args)) :
  cb' <> cb -> invocations_of cb (l ++ [(cb', args)]) = invocations_of cb l.
Proof.
  intros Hne. rewrite invocations_of_app. unfold invocations_of at 2.
  rewrite filter_cons_False by (simpl; exact Hne).
  rewrite filter_nil. apply app_nil_r.
Qed.

(** An event invokes only a callback that sits in a slot, and stores
    nothing new in the slots. *)
Lemma irq_invokes_only_stored (cb : callback) (ev : event) (w : world) :
  ~ stored cb (obj w) ->
  ~ stored cb (obj (snd (_irq radio decode_name ev w)))
  /\ invocations_of cb (cb_calls (snd (_irq radio decode_name ev w)))
       = invocations_of cb (cb_calls w).
Proof.
  destruct w as [[] bl cl]. unfold stored. py_step. intros Hns.
  assert (Hscan : _scan_callback0 <> Some cb) by tauto.
  assert (Hconn : _conn_callback0 <> Some cb) by tauto.
  assert (Hserv : _serv_done_callback0 <> Some cb) by tauto.
  assert (Hchar : _char_done_callback0 <> Some cb) by tauto.
  assert (Hread : _read_callback0 <> Some cb) by tauto.
  assert (Hwrite : _write_callback0 <> Some cb) by tauto.
  assert (Hnot : _notify_callback0 <> Some cb) by tauto.
  clear Hns.
  destruct ev; run_py; unfold ble; py_step;
    repeat match goal with
      | |- context [match ?x with Some _ => _ | None => _ end] =>
          is_var x; destruct x
      end; py_step;
    repeat (break_if; py_step);
    (split; [ intuition congruence
            | first [ reflexivity
                    | apply invocations_of_other; congruence ] ]).
Qed.

Lemma deliver_invokes_only_stored (cb : callback) (evs : list event) (w : world) :
  ~ stored cb (obj w) ->
  invocations_of cb (cb_calls (deliver radio decode_name evs w))
    = invocations_of cb (cb_calls w).
Proof.
  revert w. induction evs as [|ev evs IH]; intros w Hns; [reflexivity|].
  cbn [deliver]. destruct (irq_invokes_only_stored cb ev w Hns) as [Hns' Heq].
  rewrite (IH _ Hns'). exact Heq.
Qed.

(** X8. The router invokes only callbacks that sit in a slot: a callback
    that is in none of the seven slots is invoked by no sequence of events,
    whatever the events are. *)
Theorem unstored_callback_never_invoked (cb : callback) (evs : list event)
    (w : world) :
  ~ stored cb (obj w) ->
  invocations_of cb (cb_calls (deliver radio decode_name evs w))
    = invocations_of cb (cb_calls w)
  /\ ~ stored cb (obj (deliver radio decode_name evs w)).
Proof.
  intros Hns. split; [by apply deliver_invokes_only_stored|].
  revert w Hns. induction evs as [|ev evs IH]; intros w Hns; [exact Hns|].
  cbn [deliver]. apply IH. by apply irq_invokes_only_stored.
Qed.

Lemma trigger_replaces (k1 k2 : trigger) (cb1 cb2 : callback) (w : world) :
  trigger_slot k1 = trigger_slot k2 ->
  cb1 <> cb2 ->
  ~ stored cb1 (obj w) ->
  ~ stored cb1
      (obj (perform radio decode_name (trigger_op k2 (Some cb2))
              (perform radio decode_name (trigger_op k1 (Some cb1)) w))).
Proof.
  destruct w as [[] bl cl]. unfold stored. py_step. intros Hk Hne Hns.
  assert (Hscan : _scan_callback0 <> Some cb1) by tauto.
  assert (Hconn : _conn_callback0 <> Some cb1) by tauto.
  assert (Hserv : _serv_done_callback0 <> Some cb1) by tauto.
  assert (Hchar : _char_done_callback0 <> Some cb1) by tauto.
  assert (Hread : _read_callback0 <> Some cb1) by tauto.
  assert (Hwrite : _write_callback0 <> Some cb1) by tauto.
  assert (Hnot : _notify_callback0 <> Some cb1) by tauto.
  assert (Hnew : Some cb2 <> Some cb1) by congruence.
  clear Hns.
  destruct _conn_handle0 as [h|];
    destruct k1, k2; try discriminate Hk; unfold trigger_op; run_op;
    repeat (first [ rewrite bool_decide_eq_true_2 by discriminate
                  | rewrite bool_decide_eq_false_2 by (intros H; by apply H)
                  | break_if ];
            py_step; run_op);
    intuition congruence.
Qed.

(** X9. Triggering an operation again replaces the pending callback of
    its slot, and the replaced callback is lost: after two triggers for the
    same slot with different callbacks, no later sequence of events invokes
    the first callback (provided it sits in no other slot). *)
Theorem replaced_callback_never_invoked (k1 k2 : trigger) (cb1 cb2 : callback)
    (evs : list event) (w : world) :
  trigger_slot k1 = trigger_slot k2 ->
  cb1 <> cb2 ->
  ~ stored cb1 (obj w) ->
  let w2 := perform radio decode_name (trigger_op k2 (Some cb2))
              (perform radio decode_name (trigger_op k1 (Some cb1)) w) in
  invocations_of cb1 (cb_calls (deliver radio decode_name evs w2))
    = invocations_of cb1 (cb_calls w).
Proof.
  intros Hk Hne Hns w2.
  rewrite deliver_invokes_only_stored by (by apply trigger_replaces).
  subst w2. destruct w as [[] bl cl].
  destruct k1, k2; try discriminate Hk; unfold trigger_op; run_op;
    repeat (break_if; py_step; run_op); reflexivity.
Qed.

(** *** The write slot *)

Lemma perform_keeps_write_slot_empty (o : op) (w : world) :
  _write_callback (obj w) = None ->
  _write_callback (obj (perform radio decode_name o w)) = None.
Proof.
  destruct w as [[] bl cl]. cbn [obj _write_callback]. intros ->.
  destruct o as [ev| | | | | | | | | | | | | | | | |]; [destruct ev|..];
    run_op; try reflexivity;
    repeat (break_if; py_step; try reflexivity).
Qed.

(** X10. No method of the class stores a write callback: whatever the
    application and the radio stack do with a new driver object, the write
    slot stays empty, so a write-done event never invokes anything and
    leaves the world as it is. *)
Theorem write_callback_never_set (ops : list op) (h vh st : Z) :
  let w := run radio decode_name ops fresh in
  _write_callback (obj w) = None
  /\ _irq radio decode_name (IRQ_GATTC_WRITE_DONE h vh st) w = (Ok tt, w).
Proof.
  intros w.
  assert (Hw : _write_callback (obj w) = None).
  { subst w. unfold run. generalize fresh (eq_refl : _write_callback (obj fresh) = None).
    induction ops as [|o ops IH]; intros w0 H0; [exact H0|].
    cbn [fold_left]. apply IH. by apply perform_keeps_write_slot_empty. }
  split; [exact Hw|].
  destruct w as [[] bl cl]. cbn [obj _write_callback] in Hw. subst.
  run_py. by break_if.
Qed.

(** *** Notifications *)

Lemma notify_taken (h vh : Z) (tag : nat) (data : bytes) (w : world) :
  _conn_handle (obj w) = Some h ->
  _value_handle (obj w) = Some vh ->
  _notify_callback (obj w) = Some (external tag) ->
  _irq radio decode_name (IRQ_GATTC_NOTIFY h vh data) w
    = (Ok tt, mkWorld (set__value (Some data) (obj w)) (ble_calls w)
                (cb_calls w ++ [(external tag, DataArgs data)])).
Proof.
  destruct w as [[] bl cl]. cbn [obj _conn_handle _value_handle _notify_callback].
  intros -> -> ->. run_py. cbn [_conn_handle _value_handle].
  by rewrite !bool_decide_eq_true_2 by reflexivity.
Qed.

(** X11. The notification callback is persistent. On a connected session
    with a callback of the caller installed, a run of notifications for the
    session's handle and value handle invokes the callback once per
    notification, in order, each time with that notification's payload;
    the callback stays installed, and [value()] afterwards returns the
    payload of the last notification. *)
Theorem notifications_invoke_each_time (h vh : Z) (tag : nat)
    (payloads : list bytes) (w : world) :
  _conn_handle (obj w) = Some h ->
  _value_handle (obj w) = Some vh ->
  _notify_callback (obj w) = Some (external tag) ->
  let w' := deliver radio decode_name (notifications h vh payloads) w in
  cb_calls w' = cb_calls w ++ map (fun d => (external tag, DataArgs d)) payloads
  /\ _notify_callback (obj w') = Some (external tag)
  /\ fst (value w') = Ok (match last payloads with
                          | Some d => Some d
                          | None => _value (obj w)
                          end)
  /\ ble_calls w' = ble_calls w.
Proof.
  revert w. induction payloads as [|d payloads IH]; intros w Hh Hvh Hcb w'.
  - subst w'. cbn. rewrite app_nil_r. by rewrite Hcb.
  - subst w'. cbn [notifications map deliver].
    rewrite (notify_taken h vh tag d w Hh Hvh Hcb). cbn [snd].
    set (w1 := mkWorld _ _ _).
    assert (H1 : _conn_handle (obj w1) = Some h) by (subst w1; cbn; by destruct (obj w)).
    assert (H2 : _value_handle (obj w1) = Some vh) by (subst w1; cbn; by destruct (obj w)).
    assert (H3 : _notify_callback (obj w1) = Some (external tag))
      by (subst w1; cbn; by destruct (obj w)).
    destruct (IH w1 H1 H2 H3) as (Hc & Hn & Hv & Hb).
    fold (notifications h vh payloads).
    split; [|split; [|split]].
    + rewrite Hc. subst w1. cbn [cb_calls]. by rewrite <- app_assoc.
    + exact Hn.
    + rewrite Hv. rewrite last_cons. destruct (last payloads); [reflexivity|].
      subst w1. cbn. by destruct (obj w).
    + rewrite Hb. reflexivity.
Qed.

(** *** More on connecting *)

(** X12. [gap_connect] uses its address arguments only when both are
    given: with only an address type, or only an address, the argument is
    ignored and the call behaves exactly like the call without address
    arguments (it falls back on the cached address). *)
Theorem gap_connect_partial_arguments_ignored (t : Z) (a : bytes)
    (callback : option callback) (w : world) :
  gap_connect radio (Some t) None callback w = gap_connect radio None None callback w
  /\ gap_connect radio None (Some a) callback w = gap_connect radio None None callback w.
Proof. split; reflexivity. Qed.

(** X13. When the radio stack rejects the connect request with [OSError],
    [gap_connect] with an explicit address returns [False]; the address,
    the address type and the callback have been stored all the same, and
    the request was issued once. *)
Theorem gap_connect_rejected (t : Z) (a : bytes) (callback : option callback)
    (w : world) :
  radio (ble_calls w) (ble_gap_connect t a) = false ->
  gap_connect radio (Some t) (Some a) callback w
    = (Ok false,
       mkWorld (set__conn_callback callback
                  (set__addr (Some a) (set__addr_type (Some t) (obj w))))
         (ble_calls w ++ [ble_gap_connect t a]) (cb_calls w)).
Proof.
  destruct w as [[] bl cl]. cbn [obj ble_calls]. intros H.
  run_op. rewrite !bool_decide_eq_true_2 by discriminate. py_step.
  by rewrite H.
Qed.

(** *** Radio-stack rejections *)

(** X14. [scan], [disconnect], both discovery triggers and the three sensor
    reads never raise, whatever the radio stack answers and whatever the
    session is: a rejection with [OSError] is swallowed and the method
    returns normally. *)
Theorem triggers_swallow_rejection (callback : option callback) (s e : Z)
    (w : world) :
  fst (scan radio callback w) = Ok tt
  /\ fst (disconnect radio w) = Ok tt
  /\ fst (discover_services radio callback w) = Ok tt
  /\ fst (discover_characteristics radio s e callback w) = Ok tt
  /\ fst (read_battery_level radio callback w) = Ok tt
  /\ fst (read_temp_sensor radio callback w) = Ok tt
  /\ fst (read_humid_sensor radio callback w) = Ok tt.
Proof.
  destruct w as [[] bl cl].
  repeat split; destruct _conn_handle0 as [h|]; run_op; try reflexivity;
    repeat (first [ rewrite bool_decide_eq_true_2 by discriminate
                  | rewrite bool_decide_eq_false_2 by (intros H; by apply H)
                  | break_if ];
            py_step; try reflexivity).
Qed.

(** X15. The generic [read] does raise in one case: on a connected session
    whose [_value_handle] was never set it stores the callback and then
    fails with [TypeError], because [None] is passed where the radio stack
    wants a handle; no request is issued. With a value handle it
    returns normally with one [gattc_read] issued. *)
Theorem read_without_value_handle (h : Z) (callback : option callback) (w : world) :
  _conn_handle (obj w) = Some h ->
  (_value_handle (obj w) = None ->
     read radio callback w
       = (Raise TypeError, with_obj (set__read_callback callback (obj w)) w))
  /\ (forall vh, _value_handle (obj w) = Some vh ->
        read radio callback w
          = (Ok tt, mkWorld (set__read_callback callback (obj w))
                      (ble_calls w ++ [gattc_read h (Some vh)]) (cb_calls w))).
Proof.
  destruct w as [[] bl cl]. cbn [obj _conn_handle _value_handle]. intros ->.
  split.
  - intros ->. run_op. by rewrite bool_decide_eq_true_2 by discriminate.
  - intros vh ->. run_op. rewrite bool_decide_eq_true_2 by discriminate. py_step.
    by destruct (radio bl (gattc_read h (Some vh))).
Qed.

(** *** What reaches the radio stack *)

Lemma radio_calls_length (o : op) (w : world) : (length (radio_calls o w) <= 1)%nat.
Proof.
  unfold radio_calls.
  destruct o as [ev| |t a ?| | | | | | | | | | | | | | |]; [destruct ev|..];
    try (simpl; lia);
    repeat case_match; simpl; lia.
Qed.

(** X16. What an operation sends to the radio stack is exactly
    [radio_calls]: never more than one call, nothing is ever removed from
    the record, and the event router sends nothing at all except the
    stop-scan request, which it sends exactly for a scan result that
    matches [search_addr] with a wanted advertising type. The triggers send
    their one request when their precondition holds and nothing
    otherwise. *)
Theorem radio_calls_per_operation (o : op) (w : world) :
  ble_calls (perform radio decode_name o w) = ble_calls w ++ radio_calls o w
  /\ (length (radio_calls o w) <= 1)%nat
  /\ match o with
     | Irq ev =>
         radio_calls o w = [gap_scan_stop]
         /\ (exists t a adv sig d, ev = IRQ_SCAN_RESULT t a adv sig d
                                   /\ scan_match (obj w) a adv)
         \/ radio_calls o w = []
            /\ (forall t a adv sig d, ev = IRQ_SCAN_RESULT t a adv sig d ->
                   ~ scan_match (obj w) a adv)
     | _ => True
     end.
Proof.
  split; [|split; [apply radio_calls_length|]].
  - destruct o as [ev| |t a ?| | | | | | | | | | | | | | |].
    + destruct ev as [t a adv sig d| | | | | | | | | | | |];
        try (destruct w as [[] bl cl]; run_op;
             repeat (break_if; py_step);
             cbn [radio_calls]; by rewrite app_nil_r).
      cbn [perform radio_calls].
      destruct (decide (scan_match (obj w) a adv)) as [Hm|Hn].
      * by destruct (scan_result_hit t a adv sig d w Hm) as (_ & Hb & _).
      * rewrite (scan_result_miss t a adv sig d w Hn). cbn [snd].
        by rewrite app_nil_r.
    + cbn [perform radio_calls]. by rewrite scan_eq.
    + destruct w as [[] bl cl]. cbn [radio_calls obj _addr_type _addr].
      destruct t as [t|], a as [a|], _addr_type0 as [t0|], _addr0 as [a0|];
        run_op;
        repeat (first [ rewrite bool_decide_eq_true_2 by discriminate
                      | rewrite bool_decide_eq_false_2 by (intros H; by apply H)
                      | break_if ];
                py_step);
        rewrite ?app_nil_r; reflexivity.
    + destruct w as [[] bl cl]. cbn [radio_calls obj _conn_handle].
      destruct _conn_handle0 as [h|]; [destruct (Z.eqb_spec h 0) as [->|Hnz]|];
        run_op; try (by rewrite app_nil_r).
      rewrite (proj2 (Z.eqb_neq h 0) Hnz). py_step.
      by destruct (radio bl (gap_disconnect h)).
    + destruct w as [[] bl cl]. cbn [radio_calls obj _conn_handle].
      destruct _conn_handle0 as [h|]; run_op;
        repeat (first [ rewrite bool_decide_eq_true_2 by discriminate
                      | rewrite bool_decide_eq_false_2 by (intros H; by apply H)
                      | break_if ];
                py_step);
        rewrite ?app_nil_r; reflexivity.
    + destruct w as [[] bl cl]. cbn [radio_calls obj _conn_handle].
      destruct _conn_handle0 as [h|]; run_op;
        repeat (first [ rewrite bool_decide_eq_true_2 by discriminate
                      | rewrite bool_decide_eq_false_2 by (intros H; by apply H)
                      | break_if ];
                py_step);
        rewrite ?app_nil_r; reflexivity.
    + destruct w as [[] bl cl]. cbn [radio_calls obj _conn_handle _value_handle].
      destruct _conn_handle0 as [h|], _value_handle0 as [vh|]; run_op;
        repeat (first [ rewrite bool_decide_eq_true_2 by discriminate
                      | rewrite bool_decide_eq_false_2 by (intros H; by apply H)
                      | break_if ];
                py_step);
        rewrite ?app_nil_r; reflexivity.
    + destruct w as [[] bl cl]. cbn [radio_calls obj _conn_handle].
      destruct _conn_handle0 as [h|]; run_op;
        repeat (first [ rewrite bool_decide_eq_true_2 by discriminate
                      | rewrite bool_decide_eq_false_2 by (intros H; by apply H)
                      | break_if ];
                py_step);
        rewrite ?app_nil_r; reflexivity.
    + destruct w as [[] bl cl]. cbn [radio_calls obj _conn_handle].
      destruct _conn_handle0 as [h|]; run_op;
        repeat (first [ rewrite bool_decide_eq_true_2 by discriminate
                      | rewrite bool_decide_eq_false_2 by (intros H; by apply H)
                      | break_if ];
                py_step);
        rewrite ?app_nil_r; reflexivity.
    + destruct w as [[] bl cl]. cbn [radio_calls obj _conn_handle].
      destruct _conn_handle0 as [h|]; run_op;
        repeat (first [ rewrite bool_decide_eq_true_2 by discriminate
                      | rewrite bool_decide_eq_false_2 by (intros H; by apply H)
                      | break_if ];
                py_step);
        rewrite ?app_nil_r; reflexivity.
    + destruct w as [[] bl cl]. run_op. by rewrite app_nil_r.
    + destruct w as [[] bl cl]. run_op.
      repeat (break_if; py_step); by rewrite app_nil_r.
    + destruct w as [[] bl cl]. run_op.
      repeat (break_if; py_step); by rewrite app_nil_r.
    + destruct w as [[] bl cl]. run_op.
      repeat (break_if; py_step); by rewrite app_nil_r.
    + destruct w as [[] bl cl]. run_op. by rewrite app_nil_r.
    + destruct w as [[] bl cl]. cbn. by rewrite app_nil_r.
    + destruct w as [[] bl cl]. run_op. by rewrite app_nil_r.
    + destruct w as [[] bl cl]. run_op. by rewrite app_nil_r.
  - destruct o as [ev| | | | | | | | | | | | | | | | |]; try exact I.
    destruct ev as [t a adv sig d| | | | | | | | | | | |];
      try (right; split; [reflexivity | intros; discriminate]).
    cbn [radio_calls].
    destruct (decide (scan_match (obj w) a adv)) as [Hm|Hn].
    + left. split; [reflexivity|]. by exists t, a, adv, sig, d.
    + right. split; [reflexivity|]. by intros ? ? ? ? ? [= _ <- <- _ _].
Qed.

(** *** The connection handle *)

(** X17. The connection handle changes only in two ways: a
    peripheral-connect event stores the handle it carries, or a reset
    (the disconnect event, [disconnect], [_reset]) removes it. No trigger,
    callback or other event touches it. *)
Theorem conn_handle_changes (o : op) (w : world) :
  let w' := perform radio decode_name o w in
  _conn_handle (obj w') = _conn_handle (obj w)
  \/ (exists h t a, o = Irq (IRQ_PERIPHERAL_CONNECT h t a)
        /\ _conn_handle (obj w') = Some h)
  \/ (obj w' = reset_obj (obj w)).
Proof.
  destruct w as [[] bl cl].
  destruct o as [ev| | | | | | | | | | | | | | | | |]; [destruct ev|..];
    run_op; try (left; reflexivity);
    repeat (break_if; py_step; try (left; reflexivity));
    first [ right; right; reflexivity
          | right; left; do 3 eexists; split; reflexivity ].
Qed.

(** *** A scan that finds the device *)

(** X18. End to end: after [scan(cb)] with a callback of the caller, a scan
    result from the searched device (non-empty address, wanted advertising
    type) followed by the scan-done event invokes [cb] exactly once, with
    the address type and address of that result and the recorded name,
    and empties the scan slot; a further scan-done event then does
    nothing. The state is not changed by any of this. *)
Theorem scan_finds_device (tag : nat) (addr_type : Z) (addr : bytes)
    (adv_type signal : Z) (adv_data : bytes) (w : world) :
  scan_match (obj w) addr adv_type ->
  addr <> [] ->
  let w1 := snd (scan radio (Some (external tag)) w) in
  let w2 := snd (_irq radio decode_name
                   (IRQ_SCAN_RESULT addr_type addr adv_type signal adv_data) w1) in
  let w3 := snd (_irq radio decode_name IRQ_SCAN_DONE w2) in
  cb_calls w3 = cb_calls w ++
                  [(external tag, ScanArgs (Some addr_type) (Some addr) (name (obj w2)))]
  /\ name (obj w2) = match advertised_name decode_name adv_data with
                     | Some n => Some n
                     | None => name (obj w)
                     end
  /\ _scan_callback (obj w3) = None
  /\ addr_found (obj w3) = true
  /\ state (obj w3) = state (obj w)
  /\ _irq radio decode_name IRQ_SCAN_DONE w3 = (Ok tt, w3).
Proof.
  intros Hm Hne w1 w2 w3.
  assert (Hm1 : scan_match (obj w1) addr adv_type).
  { subst w1. rewrite scan_eq. cbn [snd obj]. destruct Hm as [Hs Ht].
    split; [|exact Ht]. rewrite <- Hs. by destruct (obj w). }
  destruct (scan_result_hit addr_type addr adv_type signal adv_data w1 Hm1)
    as (Ho & Hb & Hc).
  fold w2 in Ho, Hb, Hc.
  assert (Hw2 : w2 = mkWorld (obj w2) (ble_calls w2) (cb_calls w2)) by (by destruct w2).
  subst w3. rewrite Hw2. rewrite Ho, Hc. subst w1. rewrite scan_eq. cbn [snd obj cb_calls].
  destruct addr as [|b addr]; [done|].
  destruct w as [[] bl cl]. unfold record_scan_result.
  destruct (advertised_name decode_name adv_data); run_py; repeat split; reflexivity.
Qed.

(** *** Disconnecting twice *)

(** X19. After [disconnect] on a session with a non-zero handle, the
    disconnect event that the radio stack delivers later is dropped, and so
    is a second [disconnect]: the session is already reset and neither
    changes the world. *)
Theorem late_disconnect_event_dropped (h t : Z) (a : bytes) (w : world) :
  _conn_handle (obj w) = Some h -> h <> 0 ->
  let w1 := snd (disconnect radio w) in
  obj w1 = reset_obj (obj w)
  /\ _irq radio decode_name (IRQ_PERIPHERAL_DISCONNECT h t a) w1 = (Ok tt, w1)
  /\ disconnect radio w1 = (Ok tt, w1).
Proof.
  intros Hh Hnz w1. subst w1. rewrite (disconnect_connected h w Hh Hnz). cbn [snd obj].
  split; [reflexivity|]. split.
  - apply disconnect_event_stale. cbn. discriminate.
  - apply disconnect_not_connected. reflexivity.
Qed.

(** *** Decoders *)

(** X20. The decoders succeed exactly on payloads that are long enough
    (one byte for the battery, four for temperature and humidity), and then
    use only that prefix: the battery decoder stores the first byte as an
    unsigned number, which lies between 0 and 255, and the temperature and
    humidity decoders store the float of the first four bytes; bytes after
    the prefix do not influence the result. *)
Theorem decoders_use_prefix (data : bytes) (w : world) :
  (fst (read_battery_level_done data w) = Ok tt <-> (1 <= length data)%nat)
  /\ (fst (read_temp_sensor_done data w) = Ok tt <-> (4 <= length data)%nat)
  /\ (fst (read_humid_sensor_done data w) = Ok tt <-> (4 <= length data)%nat)
  /\ read_battery_level_done data w = read_battery_level_done (take 1 data) w
  /\ read_temp_sensor_done data w = read_temp_sensor_done (take 4 data) w
  /\ read_humid_sensor_done data w = read_humid_sensor_done (take 4 data) w
  /\ (forall b rest,
        read_battery_level_done (b :: rest) w
          = (Ok tt, with_obj (set_state S_READ_BATTERY_DONE
                                (set_battery (Some (Tuple1 (Z.of_N (Byte.to_N b))))
                                   (obj w))) w)
        /\ 0 <= Z.of_N (Byte.to_N b) <= 255)
  /\ (forall b0 b1 b2 b3 rest,
        read_temp_sensor_done (b0 :: b1 :: b2 :: b3 :: rest) w
          = (Ok tt, with_obj (set_state S_READ_TSENSOR_DONE
                                (set_temperature
                                   (Some (Tuple1 (binary32_of_bits
                                                    (le_word32 b0 b1 b2 b3))))
                                   (obj w))) w)
        /\ read_humid_sensor_done (b0 :: b1 :: b2 :: b3 :: rest) w
            = (Ok tt, with_obj (set_state S_READ_HSENSOR_DONE
                                  (set_humidity
                                     (Some (Tuple1 (binary32_of_bits
                                                      (le_word32 b0 b1 b2 b3))))
                                     (obj w))) w)).
Proof.
  split; [|split; [|split; [|split; [|split; [|split; [|split]]]]]].
  1-6: destruct w as [[] bl cl];
       destruct data as [|c0 [|c1 [|c2 [|c3 more]]]];
       first [ reflexivity
             | split; intros H;
               first [discriminate H | simpl in H; lia | reflexivity | simpl; lia] ].
  - intros b rest. split; [reflexivity|].
    pose proof (Byte.to_N_bounded b). lia.
  - intros b0 b1 b2 b3 rest. split; reflexivity.
Qed.

(** *** Discovery, trigger to completion *)

Lemma discover_services_connected (h : Z) (callback : option callback) (w : world) :
  _conn_handle (obj w) = Some h ->
  discover_services radio callback w
    = (Ok tt,
       mkWorld (set__serv_done_callback callback (set_services (Some ∅) (obj w)))
         (ble_calls w ++ [gattc_discover_services h]) (cb_calls w)).
Proof.
  destruct w as [[] bl cl]. cbn [obj _conn_handle]. intros ->.
  run_op. rewrite bool_decide_eq_true_2 by discriminate. py_step.
  destruct (radio bl (gattc_discover_services h)); reflexivity.
Qed.

Lemma discover_characteristics_connected (h s e : Z) (callback : option callback)
    (w : world) :
  _conn_handle (obj w) = Some h ->
  discover_characteristics radio s e callback w
    = (Ok tt,
       mkWorld (set__char_done_callback callback (set_characteristics (Some ∅) (obj w)))
         (ble_calls w ++ [gattc_discover_characteristics h s e]) (cb_calls w)).
Proof.
  destruct w as [[] bl cl]. cbn [obj _conn_handle]. intros ->.
  run_op. rewrite bool_decide_eq_true_2 by discriminate. py_step.
  destruct (radio bl (gattc_discover_characteristics h s e)); reflexivity.
Qed.

(** X21. Service discovery from trigger to completion, on a connected
    session that knows which service it wants: [discover_services(cb)]
    starts from an empty cache, so after the results of one discovery and
    the service-done event the cache holds exactly the reported services
    (here: one), earlier entries are gone, [cb] was invoked once without
    arguments and its slot is empty, and the state is [S_SERVICE_DONE]. *)
Theorem service_discovery_completes (h s e st : Z) (uuid wanted : UUID) (tag : nat)
    (w : world) :
  _conn_handle (obj w) = Some h ->
  search_service (obj w) = Some wanted ->
  let w3 := run radio decode_name
              [ Call_discover_services (Some (external tag));
                Irq (IRQ_GATTC_SERVICE_RESULT h s e uuid);
                Irq (IRQ_GATTC_SERVICE_DONE h st) ] w in
  services (obj w3) = Some {[uuid := (s, e)]}
  /\ cb_calls w3 = cb_calls w ++ [(external tag, NoArgs)]
  /\ _serv_done_callback (obj w3) = None
  /\ state (obj w3) = S_SERVICE_DONE
  /\ ble_calls w3 = ble_calls w ++ [gattc_discover_services h].
Proof.
  intros Hh Hw w3. subst w3. unfold run. cbn [fold_left perform].
  rewrite (discover_services_connected h _ w Hh). cbn [snd].
  destruct w as [[] bl cl]. cbn [obj _conn_handle search_service] in Hh, Hw. subst.
  run_py. cbn [_conn_handle set__serv_done_callback set_services].
  rewrite bool_decide_eq_true_2 by reflexivity. py_step.
  destruct (bool_decide (uuid = wanted)); py_step; repeat split; reflexivity.
Qed.

(** *** Waiting *)

Variable ticks_diff : Z -> Z -> Z.

Lemma wait_loop_sound (cond : Sensiron -> bool) (t0 timeout_ms : Z)
    (clock : list poll) (w : world) :
  let r := wait_loop radio decode_name ticks_diff cond t0 timeout_ms clock w in
  (fst r = Some true -> cond (obj (snd r)) = true)
  /\ (fst r = Some false ->
        exists p, In p clock /\ timeout_ms <= ticks_diff (ticks_ms p) t0)
  /\ (exists n, snd r = deliver radio decode_name
                          (concat (map meanwhile (take n clock))) w).
Proof.
  revert w. induction clock as [|p clock IH]; intros w r; subst r.
  - cbn. repeat split; try discriminate. by exists 0%nat.
  - cbn [wait_loop].
    destruct (Z.ltb_spec (ticks_diff (ticks_ms p) t0) timeout_ms) as [Hlt|Hge].
    + destruct (cond (obj w)) eqn:Hc.
      * cbn. repeat split; try done. by exists 0%nat.
      * destruct (IH (deliver radio decode_name (meanwhile p) w)) as (Ht & Hf & n & Hn).
        split; [exact Ht|]. split.
        -- intros H. destruct (Hf H) as (q & Hq & Hd). exists q. split; [by right|exact Hd].
        -- exists (S n). rewrite Hn. cbn [take map concat]. by rewrite deliver_app.
    + cbn. repeat split; try done.
      * intros _. exists p. split; [by left|lia].
      * by exists 0%nat.
Qed.

(** X22. What the waiting functions return is justified. If [wait_for]
    returns [True], the state equals the wanted state when it returns; if
    [wait_for_connection] returns [True], [is_connected] equals the wanted
    status; if either returns [False], a clock reading had reached the
    timeout. *)
Theorem wait_result_justified (timeout_ms : Z) (clock : list poll) (w : world) :
  (forall wanted,
     let r := wait_for radio decode_name ticks_diff wanted timeout_ms clock w in
     (fst r = Some true -> state (obj (snd r)) = wanted)
     /\ (fst r = Some false ->
           exists p0 rest p, clock = p0 :: rest /\ In p rest
             /\ timeout_ms <= ticks_diff (ticks_ms p) (ticks_ms p0)))
  /\ (forall status,
        let r := wait_for_connection radio decode_name ticks_diff status timeout_ms
                   clock w in
        (fst r = Some true ->
           fst (is_connected (snd r)) = Ok status)
        /\ (fst r = Some false ->
              exists p0 rest p, clock = p0 :: rest /\ In p rest
                /\ timeout_ms <= ticks_diff (ticks_ms p) (ticks_ms p0))).
Proof.
  split; intros x r; subst r; unfold wait_for, wait_for_connection, wait_from_now;
    (destruct clock as [|p0 rest]; [split; discriminate|]);
    match goal with
    | |- context [wait_loop _ _ _ ?c ?t0 ?tm ?cl ?w0] =>
        destruct (wait_loop_sound c t0 tm cl w0) as (Ht & Hf & _)
    end;
    (split;
     [ intros H; specialize (Ht H); cbn beta in Ht;
       apply bool_decide_eq_true in Ht; try exact Ht;
       cbn; by rewrite Ht
     | intros H; destruct (Hf H) as (p & Hp & Hd); by exists p0, rest, p ]).
Qed.

(** X23. The first test of the loop decides before the state is looked
    at: when the first clock reading inside the loop is already at or past
    the timeout, the waiting functions return [False] even though the
    condition holds; when it is within the timeout and the condition holds,
    they return [True] at once, without sleeping. *)
Theorem wait_first_poll (cond : Sensiron -> bool) (timeout_ms : Z)
    (p0 p1 : poll) (clock : list poll) (w : world) :
  meanwhile p0 = [] ->
  cond (obj w) = true ->
  let r := wait_from_now radio decode_name ticks_diff cond timeout_ms
             (p0 :: p1 :: clock) w in
  (ticks_diff (ticks_ms p1) (ticks_ms p0) < timeout_ms -> r = (Some true, w))
  /\ (timeout_ms <= ticks_diff (ticks_ms p1) (ticks_ms p0) -> r = (Some false, w)).
Proof.
  intros Hm Hc r. subst r. cbn [wait_from_now wait_loop]. rewrite Hm. cbn [deliver].
  rewrite Hc. split; intros H.
  - by rewrite (proj2 (Z.ltb_lt _ _) H).
  - by rewrite (proj2 (Z.ltb_ge _ _) H).
Qed.

(** X24. The loop ends once the clock passes the timeout: if some reading
    after the first is at or past the timeout, the waiting functions return
    [True] or [False], and the world they leave is the one reached by the
    events of the polls they went through. *)
Theorem wait_returns (cond : Sensiron -> bool) (timeout_ms : Z)
    (p0 : poll) (clock : list poll) (w : world) :
  (exists p, In p clock /\ timeout_ms <= ticks_diff (ticks_ms p) (ticks_ms p0)) ->
  let r := wait_from_now radio decode_name ticks_diff cond timeout_ms (p0 :: clock) w in
  (exists b, fst r = Some b)
  /\ (exists n, snd r = deliver radio decode_name
                          (concat (map meanwhile (take n (p0 :: clock)))) w).
Proof.
  intros Hex r. subst r. cbn [wait_from_now]. split.
  - generalize (deliver radio decode_name (meanwhile p0) w). clear w.
    induction clock as [|p clock IH]; intros w.
    + destruct Hex as (p & [] & _).
    + cbn [wait_loop].
      destruct (Z.ltb_spec (ticks_diff (ticks_ms p) (ticks_ms p0)) timeout_ms)
        as [Hlt|Hge]; [|by exists false].
      destruct (cond (obj w)); [by exists true|].
      apply IH. destruct Hex as (q & [<- | Hq] & Hd); [lia|]. by exists q.
  - destruct (wait_loop_sound cond (ticks_ms p0) timeout_ms clock
                (deliver radio decode_name (meanwhile p0) w)) as (_ & _ & n & Hn).
    exists (S n). rewrite Hn. cbn [take map concat]. by rewrite deliver_app.
Qed.

(** *** The cached value *)

(** X25. The cached payload ([_value], what [value()] returns) changes only
    in two ways: a read-result or notify event that is taken stores its
    payload, or a reset removes it. Nothing else touches it, so the last
    payload stays available until the next one arrives. *)
Theorem last_value_changes (o : op) (w : world) :
  let w' := perform radio decode_name o w in
  fst (value w') = fst (value w)
  \/ (exists h vh d, (o = Irq (IRQ_GATTC_READ_RESULT h vh d)
                      \/ o = Irq (IRQ_GATTC_NOTIFY h vh d))
        /\ fst (value w') = Ok (Some d))
  \/ obj w' = reset_obj (obj w).
Proof.
  destruct w as [[] bl cl].
  destruct o as [ev| | | | | | | | | | | | | | | | |]; [destruct ev|..];
    run_op; try (left; reflexivity);
    repeat (break_if; py_step; try (left; reflexivity));
    first [ right; right; reflexivity
          | right; left; do 3 eexists; split; [left; reflexivity | reflexivity]
          | right; left; do 3 eexists; split; [right; reflexivity | reflexivity] ].
Qed.

(** *** A decoder that raises *)

(** X26. When the temperature decoder is the pending read callback and a
    read result shorter than four bytes arrives, the [ValueError] of the
    decoder leaves [_irq]; the payload is cached, but temperature and state
    are not assigned and the callback stays in its slot. The next read
    result for the same handles, if long enough, is therefore decoded by
    the same callback, which is only then removed. *)
Theorem failed_decode_keeps_callback (h vh : Z) (short : bytes)
    (b0 b1 b2 b3 : byte) (rest : bytes) (w : world) :
  _conn_handle (obj w) = Some h ->
  _value_handle (obj w) = Some vh ->
  _read_callback (obj w) = Some read_temp_sensor_done_method ->
  (length short < 4)%nat ->
  let full := b0 :: b1 :: b2 :: b3 :: rest in
  let r1 := _irq radio decode_name (IRQ_GATTC_READ_RESULT h vh short) w in
  let r2 := _irq radio decode_name (IRQ_GATTC_READ_RESULT h vh full) (snd r1) in
  r1 = (Raise ValueError,
        mkWorld (set__value (Some short) (obj w)) (ble_calls w)
          (cb_calls w ++ [(read_temp_sensor_done_method, DataArgs short)]))
  /\ r2 = (Ok tt,
           mkWorld
             (set__read_callback None
                (set_state S_READ_TSENSOR_DONE
                   (set_temperature
                      (Some (Tuple1 (binary32_of_bits (le_word32 b0 b1 b2 b3))))
                      (set__value (Some full) (obj w)))))
             (ble_calls w)
             (cb_calls w ++ [(read_temp_sensor_done_method, DataArgs short);
                             (read_temp_sensor_done_method, DataArgs full)])).
Proof.
  intros Hh Hvh Hcb Hlen full r1 r2. subst r2 r1 full.
  destruct w as [[] bl cl]. cbn [obj _conn_handle _value_handle _read_callback] in *.
  subst.
  destruct short as [|s0 [|s1 [|s2 [|s3 short]]]]; try (simpl in Hlen; lia);
    run_py; cbn [_conn_handle _value_handle];
    rewrite !bool_decide_eq_true_2 by reflexivity; py_step;
    rewrite ?bool_decide_eq_true_2 by reflexivity; py_step;
    (split; [reflexivity | by rewrite <- app_assoc]).
Qed.

(** *** A stop request that is rejected *)

(** X27. Unlike the triggers, the router does not guard its one radio call:
    when a matching scan result is handled and the radio stack rejects the
    stop-scan request, the [OSError] leaves [_irq]. The device has been
    recorded all the same. When the stack accepts, the event returns
    normally. *)
Theorem scan_result_stop_outcome (addr_type : Z) (addr : bytes)
    (adv_type signal : Z) (adv_data : bytes) (w : world) :
  scan_match (obj w) addr adv_type ->
  let r := _irq radio decode_name
             (IRQ_SCAN_RESULT addr_type addr adv_type signal adv_data) w in
  fst r = (if radio (ble_calls w) gap_scan_stop then Ok tt else Raise OSError)
  /\ obj (snd r) = record_scan_result addr_type addr signal
                     (advertised_name decode_name adv_data) (obj w).
Proof.
  intros Hm r. subst r.
  destruct (scan_result_hit addr_type addr adv_type signal adv_data w Hm) as (Ho & _).
  split; [|exact Ho].
  apply scan_match_test in Hm. unfold _irq, bind, self. cbn [obj fst snd]. rewrite Hm.
  destruct w as [o bl cl]. unfold when. cbn [obj ble_calls].
  destruct (bool_decide (name_or_unknown decode_name adv_data <> "?"));
    unfold assign, ble, ret; cbn [obj ble_calls cb_calls fst snd];
    destruct (radio bl gap_scan_stop); reflexivity.
Qed.

End Properties.

(** ** The properties at concrete sessions *)

(** C9 at concrete payloads: an empty battery payload and a three-byte
    temperature / humidity payload. *)
Lemma decoders_short_payload_witness :
  read_battery_level_done [] fresh = (Raise ValueError, fresh)
  /\ read_temp_sensor_done [x00; x00; xbc] fresh = (Raise ValueError, fresh)
  /\ read_humid_sensor_done [x00; x00; xbc] fresh = (Raise ValueError, fresh).
Proof.
  split.
  - apply (proj1 (decoders_short_payload [] fresh)). simpl. lia.
  - apply (proj2 (decoders_short_payload [x00; x00; xbc] fresh)). simpl. lia.
Defined.


(** C7 at a concrete session: after the link has dropped. *)
Lemma connected_only_when_disconnected_witness :
  _conn_handle (obj dropped) = None
  /\ read_battery_level radio_accepts (Some read_battery_level_done_method) dropped
       = (Ok tt, dropped)
  /\ discover_services radio_accepts None dropped
       = (Ok tt, with_obj (set_services (Some ∅) (obj dropped)) dropped).
Proof.
  assert (H : _conn_handle (obj dropped) = None) by reflexivity.
  destruct (connected_only_when_disconnected radio_accepts
              (Some read_battery_level_done_method) 1 255 dropped H)
    as (_ & Hb & _).
  destruct (connected_only_when_disconnected radio_accepts None 1 255 dropped H)
    as (_ & _ & _ & _ & Hs & _).
  exact (conj H (conj Hb Hs)).
Defined.

(** C3 at a concrete session: the disconnect event for handle 1 of the
    discovered session. *)
Lemma disconnect_event_resets_witness :
  let w' := snd (_irq radio_accepts decode_name_simple
                   (IRQ_PERIPHERAL_DISCONNECT 1 ADDR_TYPE_RANDOM Sensiron_mac0)
                   discovered) in
  _conn_handle (obj discovered) = Some 1
  /\ state (obj w') = S_INIT
  /\ _conn_handle (obj w') = None
  /\ no_callbacks (obj w')
  /\ services (obj w') = services (obj discovered).
Proof.
  intros w'.
  assert (H : _conn_handle (obj discovered) = Some 1) by reflexivity.
  destruct (disconnect_event_resets radio_accepts decode_name_simple
              1 ADDR_TYPE_RANDOM Sensiron_mac0 discovered H)
    as (_ & Hs & Hc & _ & _ & _ & _ & _ & _ & Hn & Hserv & _).
  exact (conj H (conj Hs (conj Hc (conj Hn Hserv)))).
Defined.

(** C10 at a concrete session: the device was found, a second scan sees
    only another device and completes. *)
Lemma scan_leaves_addr_found_stale_witness :
  let other := IRQ_SCAN_RESULT ADDR_TYPE_PUBLIC [x01; x02; x03; x04; x05; x06]
                 _ADV_IND (-80) [] in
  let w1 := snd (scan radio_accepts (Some scan_done_method) found) in
  let w2 := deliver radio_accepts decode_name_simple [other; IRQ_SCAN_DONE] w1 in
  addr_found (obj found) = true
  /\ Forall (scan_miss (obj found)) [other]
  /\ addr_found (obj w2) = true
  /\ _addr (obj w2) = None
  /\ obj (perform radio_accepts decode_name_simple Call__reset found)
       = reset_obj (obj found).
Proof.
  intros other w1 w2.
  assert (Hf : addr_found (obj found) = true) by reflexivity.
  assert (Hmiss : Forall (scan_miss (obj found)) [other]).
  { repeat constructor. intros [H _]. discriminate H. }
  destruct (scan_leaves_addr_found_stale radio_accepts decode_name_simple
              (Some scan_done_method) found)
    as (_ & _ & _ & _ & _ & _ & Hstale & Honly).
  destruct (Hstale Hf [other] Hmiss) as [H1 H2].
  exact (conj Hf (conj Hmiss (conj H1 (conj H2 (Honly Hf Call__reset eq_refl))))).
Defined.

(** C1, counterexample. On a new driver object a characteristic-done event
    followed by a service-done event takes the state from
    [S_CHARACTERISTIC_DONE] back to [S_SERVICE_DONE], with no reset. *)
Lemma state_moves_backward :
  let w := run radio_accepts decode_name_simple
             [Irq (IRQ_GATTC_CHARACTERISTIC_DONE 1 0)] fresh in
  let w' := perform radio_accepts decode_name_simple
              (Irq (IRQ_GATTC_SERVICE_DONE 1 0)) w in
  state (obj w) = S_CHARACTERISTIC_DONE
  /\ state (obj w') = S_SERVICE_DONE
  /\ ~ forward_or_reset (state (obj w)) (state (obj w'))
  /\ ~ state_monotone_claim.
Proof.
  intros w w'.
  assert (Hback : ~ forward_or_reset (state (obj w)) (state (obj w'))).
  { intros [H | H]; [apply H; reflexivity | discriminate H]. }
  repeat split; try exact Hback.
  intros Hclaim. apply Hback.
  apply (Hclaim radio_accepts decode_name_simple
           [Irq (IRQ_GATTC_CHARACTERISTIC_DONE 1 0)]
           (Irq (IRQ_GATTC_SERVICE_DONE 1 0))).
  - repeat constructor.
  - exact I.
Qed.

(** C3, counterexample. After connect, service discovery and one reported
    service, the disconnect event for the session's handle resets the
    object but the [services] cache still holds the reported service. *)
Lemma disconnect_event_keeps_services :
  _conn_handle (obj discovered) = Some 1
  /\ _conn_handle (obj dropped) = None
  /\ services (obj dropped) = Some {[generic_access_uuid := (1, 7)]}
  /\ ~ cache_cleared (services (obj dropped))
  /\ ~ disconnect_clears_all_claim.
Proof.
  assert (Hs : services (obj dropped) = Some {[generic_access_uuid := (1, 7)]})
    by (vm_compute; reflexivity).
  assert (Hn : ~ cache_cleared (services (obj dropped))).
  { rewrite Hs. intros [H | H]; [discriminate H|].
    apply (inj Some) in H. by apply map_non_empty_singleton in H. }
  repeat split; try assumption.
  intros Hclaim. apply Hn.
  destruct (Hclaim radio_accepts decode_name_simple 1 ADDR_TYPE_RANDOM
              Sensiron_mac0 discovered eq_refl)
    as (_ & _ & _ & _ & _ & Hc & _).
  exact Hc.
Qed.

(** C7, counterexample. The link has dropped, the driver is disconnected
    and its [services] cache holds a service; [discover_services] then
    returns without a radio call, but the cache is empty afterwards. *)
Lemma discover_services_disconnected_clears_cache :
  let w' := perform radio_accepts decode_name_simple (Call_discover_services None)
              dropped in
  _conn_handle (obj dropped) = None
  /\ services (obj dropped) = Some {[generic_access_uuid := (1, 7)]}
  /\ services (obj w') = Some ∅
  /\ ble_calls w' = ble_calls dropped
  /\ w' <> dropped
  /\ ~ disconnected_noop_claim.
Proof.
  intros w'.
  assert (Hs : services (obj dropped) = Some {[generic_access_uuid := (1, 7)]})
    by (vm_compute; reflexivity).
  assert (Hs' : services (obj w') = Some ∅) by reflexivity.
  assert (Hne : w' <> dropped).
  { intros H. rewrite H, Hs in Hs'. apply (inj Some) in Hs'.
    by apply map_non_empty_singleton in Hs'. }
  repeat split; try assumption.
  intros Hclaim. apply Hne.
  apply (Hclaim radio_accepts decode_name_simple (Call_discover_services None) dropped);
    [exact I | reflexivity].
Qed.

(** ** Further properties at concrete sessions *)

(** X1 at a concrete session: the connect event of [demo_man]'s device
    after [gap_connect] with a callback, and one from another address. *)
Lemma connect_event_effect_witness :
  let w := perform radio_accepts decode_name_simple
             (Call_gap_connect (Some ADDR_TYPE_RANDOM) (Some Sensiron_mac0)
                (Some (external 3))) fresh in
  _addr_type (obj w) = Some ADDR_TYPE_RANDOM
  /\ _addr (obj w) = Some Sensiron_mac0
  /\ _conn_handle (obj (snd (_irq radio_accepts decode_name_simple
                               (IRQ_PERIPHERAL_CONNECT 1 ADDR_TYPE_RANDOM Sensiron_mac0) w)))
       = Some 1
  /\ _irq radio_accepts decode_name_simple
       (IRQ_PERIPHERAL_CONNECT 1 ADDR_TYPE_RANDOM []) w = (Ok tt, w).
Proof.
  intros w.
  assert (Ht : _addr_type (obj w) = Some ADDR_TYPE_RANDOM) by reflexivity.
  assert (Ha : _addr (obj w) = Some Sensiron_mac0) by reflexivity.
  destruct (connect_event_effect radio_accepts decode_name_simple 1 ADDR_TYPE_RANDOM
              Sensiron_mac0 w) as (Hyes & _).
  destruct (Hyes Ht Ha) as (_ & _ & Hh).
  destruct (connect_event_effect radio_accepts decode_name_simple 1 ADDR_TYPE_RANDOM
              [] w) as (_ & Hno).
  refine (conj Ht (conj Ha (conj Hh (Hno _)))).
  right. rewrite Ha. discriminate.
Defined.

(** X2 at concrete sessions: a read result on a new driver object, a
    notification for the battery handle on the subscribed session, and a
    service-done event for a foreign handle on a session with a pending
    service-done callback. *)
Lemma stale_event_dropped_witness :
  let w := perform radio_accepts decode_name_simple
             (Call_discover_services (Some (external 4))) connected in
  _irq radio_accepts decode_name_simple (IRQ_GATTC_READ_RESULT 1 29 [x64]) fresh
    = (Ok tt, fresh)
  /\ _irq radio_accepts decode_name_simple (IRQ_GATTC_NOTIFY 1 29 [x64]) subscribed
       = (Ok tt, subscribed)
  /\ _conn_handle (obj w) = Some 1
  /\ cb_calls (snd (_irq radio_accepts decode_name_simple
                      (IRQ_GATTC_SERVICE_DONE 99 0) w)) = [(external 4, NoArgs)].
Proof.
  intros w.
  destruct (stale_event_dropped radio_accepts decode_name_simple)
    as (Hconn & Hval & _ & Hserv & _).
  split; [|split; [|split]].
  - apply (Hconn _ 1); [reflexivity | reflexivity | discriminate].
  - apply (Hval _ 29); [reflexivity | reflexivity | discriminate].
  - reflexivity.
  - rewrite (Hserv 99 0 4%nat w eq_refl). reflexivity.
Defined.

(** X3 at a concrete session: a second service reported to the discovered
    session. *)
Lemma service_result_recorded_witness :
  let r := _irq radio_accepts decode_name_simple
             (IRQ_GATTC_SERVICE_RESULT 1 8 11 "UUID(0x1801)") discovered in
  _conn_handle (obj discovered) = Some 1
  /\ services (obj discovered) = Some {[generic_access_uuid := (1, 7)]}
  /\ search_service (obj discovered) = Some generic_access_uuid
  /\ fst r = Ok tt
  /\ services (obj (snd r))
       = Some (<["UUID(0x1801)" := (8, 11)]> {[generic_access_uuid := (1, 7)]}).
Proof.
  intros r.
  assert (Hh : _conn_handle (obj discovered) = Some 1) by reflexivity.
  assert (Hs : services (obj discovered) = Some {[generic_access_uuid := (1, 7)]})
    by (vm_compute; reflexivity).
  assert (Hw : search_service (obj discovered) = Some generic_access_uuid)
    by reflexivity.
  destruct (service_result_recorded radio_accepts decode_name_simple 1 8 11
              "UUID(0x1801)" generic_access_uuid _ discovered Hh Hs Hw)
    as (Hok & Hserv & _).
  exact (conj Hh (conj Hs (conj Hw (conj Hok Hserv)))).
Defined.

(** X4 at a concrete session: discovery results right after connecting. *)
Lemma discovery_result_missing_attribute_witness :
  _conn_handle (obj connected) = Some 1
  /\ services (obj connected) = None
  /\ _irq radio_accepts decode_name_simple
       (IRQ_GATTC_SERVICE_RESULT 1 1 7 generic_access_uuid) connected
       = (Raise (AttributeError "services"), connected)
  /\ _irq radio_accepts decode_name_simple
       (IRQ_GATTC_CHARACTERISTIC_RESULT 1 2 3 10 "UUID(0x2a00)") connected
       = (Raise (AttributeError "characteristics"), connected).
Proof.
  assert (Hh : _conn_handle (obj connected) = Some 1) by reflexivity.
  assert (Hs : services (obj connected) = None) by reflexivity.
  destruct (discovery_result_missing_attribute radio_accepts decode_name_simple 1
              connected Hh) as (H1 & _ & H3).
  exact (conj Hh (conj Hs (conj (H1 1 7 generic_access_uuid Hs)
                             (H3 2 3 10 "UUID(0x2a00)" eq_refl)))).
Defined.

(** X5 at a concrete session: a characteristic reported to the subscribed
    session. *)
Lemma characteristic_result_recorded_witness :
  _conn_handle (obj subscribed) = Some 1
  /\ characteristics (obj subscribed) = Some ∅
  /\ _irq radio_accepts decode_name_simple
       (IRQ_GATTC_CHARACTERISTIC_RESULT 1 2 3 10 "UUID(0x2a00)") subscribed
       = (Ok tt,
          with_obj (set_characteristics (Some (<["UUID(0x2a00)" := (2, 3, 10)]> ∅))
                      (obj subscribed)) subscribed).
Proof.
  assert (Hh : _conn_handle (obj subscribed) = Some 1) by reflexivity.
  assert (Hc : characteristics (obj subscribed) = Some ∅) by reflexivity.
  destruct (characteristic_result_recorded radio_accepts decode_name_simple
              1 2 3 10 "UUID(0x2a00)" ∅ subscribed Hh Hc) as (Heq & _).
  exact (conj Hh (conj Hc Heq)).
Defined.

(** X6 at a concrete session: reading the battery of the connected
    device, which answers 0x64. *)
Lemma sensor_read_completes_witness :
  let w1 := snd (read_battery_level radio_accepts (Some read_battery_level_done_method)
                   connected) in
  let w2 := snd (_irq radio_accepts decode_name_simple
                   (IRQ_GATTC_READ_RESULT 1 _HANDLE_BATT_LEVEL [x64]) w1) in
  _conn_handle (obj connected) = Some 1
  /\ battery (obj w2) = Some (Tuple1 100)
  /\ state (obj w2) = S_READ_BATTERY_DONE
  /\ _read_callback (obj w2) = None.
Proof.
  intros w1 w2.
  assert (Hh : _conn_handle (obj connected) = Some 1) by reflexivity.
  destruct (sensor_read_completes radio_accepts decode_name_simple 1 connected Hh)
    as (Hb & _).
  specialize (Hb x64 []). cbv zeta in Hb. fold w1 in Hb.
  subst w2. rewrite Hb. cbn [snd obj].
  refine (conj Hh _). repeat split.
Defined.

(** X7 at a concrete session: a battery result that arrives after the
    temperature read was triggered. *)
Lemma late_read_result_dropped_witness :
  let w1 := snd (read_temp_sensor radio_accepts (Some read_temp_sensor_done_method)
                   connected) in
  _conn_handle (obj connected) = Some 1
  /\ _irq radio_accepts decode_name_simple
       (IRQ_GATTC_READ_RESULT 1 _HANDLE_BATT_LEVEL [x64]) w1 = (Ok tt, w1).
Proof.
  intros w1.
  assert (Hh : _conn_handle (obj connected) = Some 1) by reflexivity.
  destruct (late_read_result_dropped radio_accepts decode_name_simple 1
              (Some read_temp_sensor_done_method) [x64] connected Hh) as (Hd & _).
  exact (conj Hh Hd).
Defined.

(** X8 at a concrete session: a callback that was never handed to the
    subscribed session, under a notification and a scan-done event. *)
Lemma unstored_callback_never_invoked_witness :
  let evs := [IRQ_GATTC_NOTIFY 1 _HANDLE_TEMPERATURE [x00; x00; xbc; x41]; IRQ_SCAN_DONE] in
  ~ stored (external 9) (obj subscribed)
  /\ invocations_of (external 9)
       (cb_calls (deliver radio_accepts decode_name_simple evs subscribed)) = [].
Proof.
  intros evs.
  assert (Hns : ~ stored (external 9) (obj subscribed)).
  { intros [H | [H | [H | [H | [H | [H | H]]]]]]; discriminate H. }
  destruct (unstored_callback_never_invoked radio_accepts decode_name_simple
              (external 9) evs subscribed Hns) as (Hi & _).
  exact (conj Hns Hi).
Defined.

(** X9 at a concrete session: a battery read replaced by a temperature
    read before the answer arrives. *)
Lemma replaced_callback_never_invoked_witness :
  let w2 := perform radio_accepts decode_name_simple
              (Call_read_temp_sensor (Some read_temp_sensor_done_method))
              (perform radio_accepts decode_name_simple
                 (Call_read_battery_level (Some read_battery_level_done_method))
                 connected) in
  let evs := [IRQ_GATTC_READ_RESULT 1 _HANDLE_BATT_LEVEL [x64];
              IRQ_GATTC_READ_RESULT 1 _HANDLE_TEMPERATURE [x00; x00; xbc; x41]] in
  ~ stored read_battery_level_done_method (obj connected)
  /\ invocations_of read_battery_level_done_method
       (cb_calls (deliver radio_accepts decode_name_simple evs w2)) = [].
Proof.
  intros w2 evs.
  assert (Hns : ~ stored read_battery_level_done_method (obj connected)).
  { intros [H | [H | [H | [H | [H | [H | H]]]]]]; discriminate H. }
  refine (conj Hns _).
  apply (replaced_callback_never_invoked radio_accepts decode_name_simple
           T_read_battery_level T_read_temp_sensor
           read_battery_level_done_method read_temp_sensor_done_method evs connected);
    [reflexivity | discriminate | exact Hns].
Defined.

(** X11 at a concrete session: two temperature notifications. *)
Lemma notifications_invoke_each_time_witness :
  let w' := deliver radio_accepts decode_name_simple
              (notifications 1 _HANDLE_TEMPERATURE
                 [[x00; x00; xbc; x41]; [x00; x00; xc0; x41]]) subscribed in
  _notify_callback (obj subscribed) = Some (external 7)
  /\ cb_calls w' = [(external 7, DataArgs [x00; x00; xbc; x41]);
                    (external 7, DataArgs [x00; x00; xc0; x41])]
  /\ _notify_callback (obj w') = Some (external 7).
Proof.
  intros w'.
  assert (Hcb : _notify_callback (obj subscribed) = Some (external 7)) by reflexivity.
  destruct (notifications_invoke_each_time radio_accepts decode_name_simple
              1 _HANDLE_TEMPERATURE 7 [[x00; x00; xbc; x41]; [x00; x00; xc0; x41]]
              subscribed eq_refl eq_refl Hcb) as (Hc & Hn & _).
  exact (conj Hcb (conj Hc Hn)).
Defined.

(** X13 at a concrete session: a radio stack that rejects every call. *)
Lemma gap_connect_rejected_witness :
  fst (gap_connect radio_rejects (Some ADDR_TYPE_RANDOM) (Some Sensiron_mac0)
         (Some (external 3)) fresh) = Ok false.
Proof.
  rewrite (gap_connect_rejected radio_rejects ADDR_TYPE_RANDOM Sensiron_mac0
             (Some (external 3)) fresh eq_refl).
  reflexivity.
Defined.

(** X15 at a concrete session: the generic read right after connecting. *)
Lemma read_without_value_handle_witness :
  _conn_handle (obj connected) = Some 1
  /\ _value_handle (obj connected) = None
  /\ fst (read radio_accepts (Some (external 3)) connected) = Raise TypeError.
Proof.
  assert (Hh : _conn_handle (obj connected) = Some 1) by reflexivity.
  assert (Hv : _value_handle (obj connected) = None) by reflexivity.
  destruct (read_without_value_handle radio_accepts 1 (Some (external 3)) connected Hh)
    as (Hnone & _).
  refine (conj Hh (conj Hv _)). rewrite (Hnone Hv). reflexivity.
Defined.

(** X18 at a concrete session: the scan of [demo_man]. *)
Lemma scan_finds_device_witness :
  let w1 := snd (scan radio_accepts (Some (external 5)) searching) in
  let w2 := snd (_irq radio_accepts decode_name_simple
                   (IRQ_SCAN_RESULT ADDR_TYPE_RANDOM Sensiron_mac0 _ADV_IND (-60)
                      adv_named_SHT) w1) in
  let w3 := snd (_irq radio_accepts decode_name_simple IRQ_SCAN_DONE w2) in
  scan_match (obj searching) Sensiron_mac0 _ADV_IND
  /\ cb_calls w3 = [(external 5, ScanArgs (Some ADDR_TYPE_RANDOM) (Some Sensiron_mac0)
                                   (Some "SHT"))]
  /\ _scan_callback (obj w3) = None.
Proof.
  intros w1 w2 w3.
  assert (Hm : scan_match (obj searching) Sensiron_mac0 _ADV_IND).
  { split; [reflexivity | by left]. }
  destruct (scan_finds_device radio_accepts decode_name_simple 5 ADDR_TYPE_RANDOM
              Sensiron_mac0 _ADV_IND (-60) adv_named_SHT searching Hm)
    as (Hc & _ & Hs & _); [discriminate|].
  exact (conj Hm (conj Hc Hs)).
Defined.

(** X19 at a concrete session: [disconnect] on the connected session, then
    the radio stack's disconnect event. *)
Lemma late_disconnect_event_dropped_witness :
  let w1 := snd (disconnect radio_accepts connected) in
  _conn_handle (obj connected) = Some 1
  /\ _irq radio_accepts decode_name_simple
       (IRQ_PERIPHERAL_DISCONNECT 1 ADDR_TYPE_RANDOM Sensiron_mac0) w1 = (Ok tt, w1).
Proof.
  intros w1.
  assert (Hh : _conn_handle (obj connected) = Some 1) by reflexivity.
  destruct (late_disconnect_event_dropped radio_accepts decode_name_simple 1
              ADDR_TYPE_RANDOM Sensiron_mac0 connected Hh) as (_ & He & _);
    [discriminate|].
  exact (conj Hh He).
Defined.

(** X21 at a concrete session: service discovery on the connected
    session. *)
Lemma service_discovery_completes_witness :
  let w3 := run radio_accepts decode_name_simple
              [ Call_discover_services (Some (external 4));
                Irq (IRQ_GATTC_SERVICE_RESULT 1 1 7 generic_access_uuid);
                Irq (IRQ_GATTC_SERVICE_DONE 1 0) ] connected in
  search_service (obj connected) = Some generic_access_uuid
  /\ services (obj w3) = Some {[generic_access_uuid := (1, 7)]}
  /\ state (obj w3) = S_SERVICE_DONE.
Proof.
  intros w3.
  assert (Hw : search_service (obj connected) = Some generic_access_uuid)
    by reflexivity.
  destruct (service_discovery_completes radio_accepts decode_name_simple 1 1 7 0
              generic_access_uuid generic_access_uuid 4 connected eq_refl Hw)
    as (Hs & _ & _ & Hst & _).
  exact (conj Hw (conj Hs Hst)).
Defined.

(** X23 at a concrete session: waiting for a connection that is there,
    with a timeout of five seconds and with a timeout of zero. *)
Lemma wait_first_poll_witness :
  let clock := [mkPoll 1000 []; mkPoll 1001 []] in
  wait_for_connection radio_accepts decode_name_simple ticks_diff_plain true 5000
    clock connected = (Some true, connected)
  /\ wait_for_connection radio_accepts decode_name_simple ticks_diff_plain true 0
       clock connected = (Some false, connected).
Proof.
  intros clock. unfold wait_for_connection.
  pose (cond := fun o : Sensiron =>
                  bool_decide (bool_decide (_conn_handle o <> None) = true)).
  split.
  - apply (proj1 (wait_first_poll radio_accepts decode_name_simple ticks_diff_plain
                    cond 5000 (mkPoll 1000 []) (mkPoll 1001 []) [] connected
                    eq_refl eq_refl)).
    vm_compute. reflexivity.
  - apply (proj2 (wait_first_poll radio_accepts decode_name_simple ticks_diff_plain
                    cond 0 (mkPoll 1000 []) (mkPoll 1001 []) [] connected
                    eq_refl eq_refl)).
    vm_compute. discriminate.
Defined.

(** X24 at a concrete session: waiting 200 ms for a scan that never
    completes. *)
Lemma wait_returns_witness :
  let clock := [mkPoll 1000 []; mkPoll 1001 []; mkPoll 1101 []; mkPoll 1201 []] in
  exists b, fst (wait_for radio_accepts decode_name_simple ticks_diff_plain
                   S_SCAN_DONE 200 clock searching) = Some b.
Proof.
  intros clock.
  refine (proj1 (wait_returns radio_accepts decode_name_simple ticks_diff_plain
                   (fun o => bool_decide (state o = S_SCAN_DONE)) 200
                   (mkPoll 1000 []) [mkPoll 1001 []; mkPoll 1101 []; mkPoll 1201 []]
                   searching _)).
  exists (mkPoll 1201 []). split; [right; right; by left|]. vm_compute. discriminate.
Defined.

(** X26 at a concrete session: a two-byte answer to a temperature read,
    then the full answer. *)
Lemma failed_decode_keeps_callback_witness :
  let w := perform radio_accepts decode_name_simple
             (Call_read_temp_sensor (Some read_temp_sensor_done_method)) connected in
  let r1 := _irq radio_accepts decode_name_simple
              (IRQ_GATTC_READ_RESULT 1 _HANDLE_TEMPERATURE [x00; x00]) w in
  let r2 := _irq radio_accepts decode_name_simple
              (IRQ_GATTC_READ_RESULT 1 _HANDLE_TEMPERATURE [x00; x00; xbc; x41])
              (snd r1) in
  _read_callback (obj w) = Some read_temp_sensor_done_method
  /\ fst r1 = Raise ValueError
  /\ _read_callback (obj (snd r1)) = Some read_temp_sensor_done_method
  /\ fst r2 = Ok tt
  /\ temperature (obj (snd r2)) = Some (Tuple1 (S754_finite false 12320768 (-19))).
Proof.
  intros w r1 r2.
  assert (Hcb : _read_callback (obj w) = Some read_temp_sensor_done_method)
    by reflexivity.
  destruct (failed_decode_keeps_callback radio_accepts decode_name_simple
              1 _HANDLE_TEMPERATURE [x00; x00] x00 x00 xbc x41 [] w
              eq_refl eq_refl Hcb) as (H1 & H2); [simpl; lia|].
  fold r1 in H1, H2. fold r2 in H2.
  rewrite H2, H1. cbn [fst snd obj].
  refine (conj Hcb _). repeat split.
Defined.

(** X27 at a concrete session: the searched device is seen while the
    radio stack rejects every call. *)
Lemma scan_result_stop_outcome_witness :
  let r := _irq radio_rejects decode_name_simple
             (IRQ_SCAN_RESULT ADDR_TYPE_RANDOM Sensiron_mac0 _ADV_IND (-60)
                adv_named_SHT) searching in
  scan_match (obj searching) Sensiron_mac0 _ADV_IND
  /\ fst r = Raise OSError
  /\ addr_found (obj (snd r)) = true.
Proof.
  intros r.
  assert (Hm : scan_match (obj searching) Sensiron_mac0 _ADV_IND).
  { split; [reflexivity | by left]. }
  destruct (scan_result_stop_outcome radio_rejects decode_name_simple ADDR_TYPE_RANDOM
              Sensiron_mac0 _ADV_IND (-60) adv_named_SHT searching Hm) as (Hf & Ho).
  fold r in Hf, Ho.
  refine (conj Hm (conj Hf _)). rewrite Ho. reflexivity.
Defined.
